(** * aurora_asi: the REGO downloader and the Imager facade

    A shallow embedding of [asi/download/download_rego.py] and of
    [asilib/imager.py], and the properties of the two modules that the
    specification states.

    Python text is modelled by [string] (ASCII text: station codes, URLs and
    archive file names are ASCII).  Exceptions are values of [exn]; a function
    that may raise returns a [result]. *)

From Stdlib Require Import Ascii String DecimalString ZArith Lia.
From stdpp Require Import gmap strings list fin_maps.

Open Scope string_scope.

(** ** Python values shared by the two modules *)

Module Py.

(** The exceptions the two modules raise or let through. *)
Inductive exn : Type :=
  | FileNotFoundError (msg : string)
  | NotADirectoryError (msg : string)
  | AttributeError (msg : string)
  | AssertionError (msg : string)
  | TypeError (msg : string)
  | IndexError (msg : string)
  | KeyError (msg : string)
  | ConnectionError (msg : string)
  | OtherError (kind msg : string).

(** [str(err)] *)
Definition str_of_exn (e : exn) : string :=
  match e with
  | FileNotFoundError m | NotADirectoryError m | AttributeError m
  | AssertionError m | TypeError m | IndexError m | KeyError m
  | ConnectionError m => m
  | OtherError _ m => m
  end.

Inductive result (A : Type) : Type :=
  | Ok (a : A)
  | Raise (e : exn).
Arguments Ok {A} a.
Arguments Raise {A} e.

Definition is_upper_letter (c : ascii) : bool :=
  let n := nat_of_ascii c in (65 <=? n)%nat && (n <=? 90)%nat.

Definition is_lower_letter (c : ascii) : bool :=
  let n := nat_of_ascii c in (97 <=? n)%nat && (n <=? 122)%nat.

Definition lower_char (c : ascii) : ascii :=
  if is_upper_letter c then ascii_of_nat (nat_of_ascii c + 32) else c.

Definition upper_char (c : ascii) : ascii :=
  if is_lower_letter c then ascii_of_nat (nat_of_ascii c - 32) else c.

(** [s.lower()] and [s.upper()] *)
Fixpoint lower (s : string) : string :=
  match s with
  | EmptyString => EmptyString
  | String c s' => String (lower_char c) (lower s')
  end.

Fixpoint upper (s : string) : string :=
  match s with
  | EmptyString => EmptyString
  | String c s' => String (upper_char c) (upper s')
  end.

(** [s.startswith(p)] *)
Fixpoint startswith (p s : string) : bool :=
  match p, s with
  | EmptyString, _ => true
  | String a p', String b s' =>
      if Ascii.eqb a b then startswith p' s' else false
  | String _ _, EmptyString => false
  end.

(** [p in s] on text: [p] occurs in [s] as a substring. *)
Fixpoint str_in (p s : string) : bool :=
  if startswith p s then true
  else match s with
       | EmptyString => false
       | String _ s' => str_in p s'
       end.

(** The characters [str.split()] treats as separators. *)
Definition is_space (c : ascii) : bool :=
  let n := nat_of_ascii c in
  (n =? 32)%nat || ((9 <=? n)%nat && (n <=? 13)%nat)
  || ((28 <=? n)%nat && (n <=? 31)%nat).

(** [s.split()]: the maximal runs of characters that are not white space.
    [cur] holds the run being read, in reverse. *)
Fixpoint split_aux (cur : list ascii) (s : string) : list string :=
  match s with
  | EmptyString =>
      match cur with
      | [] => []
      | _ => [string_of_list_ascii (rev cur)]
      end
  | String c s' =>
      if is_space c then
        match cur with
        | [] => split_aux [] s'
        | _ => string_of_list_ascii (rev cur) :: split_aux [] s'
        end
      else split_aux (c :: cur) s'
  end.

Definition split (s : string) : list string := split_aux [] s.

(** [str(n)] for a number that is not negative. *)
Definition str_of_nat (n : nat) : string :=
  NilEmpty.string_of_uint (Nat.to_uint n).

(** [s.zfill(w)] for text without a sign. *)
Definition zfill (w : nat) (s : string) : string :=
  string_of_list_ascii (repeat "0"%char (w - String.length s)) ++ s.

(** The character [chr(34)]. *)
Definition dquote : string := String (ascii_of_nat 34) EmptyString.

(** Computations that read and change a state [S] and may raise; what was
    done before an exception stays done. *)
Definition M (S A : Type) : Type := S -> result A * S.

Definition ret {S A} (a : A) : M S A := fun w => (Ok a, w).

Definition raise {S A} (e : exn) : M S A := fun w => (Raise e, w).

Definition bind {S A B} (m : M S A) (k : A -> M S B) : M S B :=
  fun w =>
    match m w with
    | (Ok a, w') => k a w'
    | (Raise e, w') => (Raise e, w')
    end.

Notation "'let*' x ':=' c1 'in' c2" := (bind c1 (fun x => c2))
  (at level 10, x name, c1 at level 100, c2 at level 200).

Definition lift {S A} (r : result A) : M S A := fun w => (r, w).

(** [for x in xs: body(x)] *)
Fixpoint for_each {S A} (xs : list A) (body : A -> M S unit) : M S unit :=
  match xs with
  | [] => ret tt
  | x :: xs' => let* _ := body x in for_each xs' body
  end.

(** [x is None] *)
Definition is_None {A} (x : option A) : bool :=
  match x with
  | None => true
  | Some _ => false
  end.

(** [xs[0]] *)
Definition item0 {S A} (xs : list A) : M S A :=
  match xs with
  | x :: _ => ret x
  | [] => raise (IndexError "list index out of range")
  end.

End Py.

(** ** [asi/download/download_rego.py] *)

Module download_rego.
Import Py.

(** [datetime.datetime], by its fields. *)
Record datetime : Type := Datetime {
  year : nat;
  month : nat;
  day : nat;
  hour : nat;
  minute : nat;
  second : nat;
  microsecond : nat
}.

(** The [day] argument: a [datetime] or text. *)
Inductive day_arg : Type :=
  | DayDatetime (d : datetime)
  | DayStr (s : string).

(** What [requests.get] gives: it raises, or it returns a response, whose
    status code the module never reads. *)
Inductive reply : Type :=
  | Fails (e : exn)
  | Response (status_code : Z) (content : string).

(** The state the module acts on: whether [config.ASI_DATA_DIR] and its
    [rego] sub-directory exist, the files of that sub-directory by name
    (archive entries are plain file names), and the URLs requested so far,
    oldest first. *)
Record world : Type := World {
  data_dir_exists : bool;
  rego_dir_exists : bool;
  rego_files : gmap string string;
  requests : list string
}.

Definition BASE_URL : string :=
  "https://data.phys.ucalgary.ca/sort_by_project/GO-Canada/REGO/stream0/".

(** [day.strftime('%Y%m%d_%H%M')] *)
Definition strftime_Ymd_HM (d : datetime) : string :=
  zfill 4 (str_of_nat (year d)) ++ zfill 2 (str_of_nat (month d))
  ++ zfill 2 (str_of_nat (day d)) ++ "_"
  ++ zfill 2 (str_of_nat (hour d)) ++ zfill 2 (str_of_nat (minute d)).

(** [pathlib.Path(config.ASI_DATA_DIR, 'rego').exists()] *)
Definition rego_exists : M world bool :=
  fun w => (Ok (data_dir_exists w && rego_dir_exists w), w).

(** [pathlib.Path(config.ASI_DATA_DIR, 'rego').mkdir()] *)
Definition rego_mkdir : M world unit :=
  fun w =>
    if data_dir_exists w then
      if rego_dir_exists w then (Raise (OtherError "FileExistsError" "rego"), w)
      else (Ok tt, World true true (rego_files w) (requests w))
    else (Raise (FileNotFoundError "rego"), w).

(** [with open(config.ASI_DATA_DIR / 'rego' / name, 'wb') as f:
      f.write(content)] *)
Definition write_file (name content : string) : M world unit :=
  fun w =>
    if data_dir_exists w && rego_dir_exists w then
      (Ok tt, World (data_dir_exists w) (rego_dir_exists w)
                (<[name := content]> (rego_files w)) (requests w))
    else (Raise (FileNotFoundError name), w).

(** The loop of [search_hrefs] over the anchors, from the list matched so
    far. *)
Definition match_hrefs (search_pattern : string) (hrefs matched : list string)
  : list string :=
  fold_left
    (fun (matched_hrefs : list string) (href : string) =>
       if negb (String.eqb href "../")
          && str_in (lower search_pattern) (lower href)
       then (matched_hrefs ++ [href])%list
       else matched_hrefs)
    hrefs matched.

Definition not_found_message (url search_pattern : string) : string :=
  "The url " ++ url ++ " does not contain any hyper "
  ++ "references containing the search_pattern=" ++ dquote
  ++ search_pattern ++ dquote ++ ".".

Section Code.

(** The archive: the reply to a GET of a URL, with [allow_redirects] as
    given. *)
Variable remote : bool -> string -> reply.

(** The texts of the anchors that
    [BeautifulSoup(content, 'html.parser').find_all('a', href=True)] finds,
    in document order. *)
Variable anchor_texts : string -> list string.

(** [dateutil.parser.parse] *)
Variable dateutil_parse : string -> result datetime.

(** [requests.get(url, allow_redirects=...)], which returns the content of
    the response. *)
Definition requests_get (url : string) (allow_redirects : bool)
  : M world string :=
  fun w =>
    let w' := World (data_dir_exists w) (rego_dir_exists w) (rego_files w)
                (requests w ++ [url])%list in
    match remote allow_redirects url with
    | Fails e => (Raise e, w')
    | Response _ content => (Ok content, w')
    end.

Definition search_hrefs (url search_pattern : string)
  : M world (list string) :=
  let* content := requests_get url true in
  let matched_hrefs := match_hrefs search_pattern (anchor_texts content) [] in
  if (length matched_hrefs =? 0)%nat then
    raise (NotADirectoryError (not_found_message url search_pattern))
  else ret matched_hrefs.

Definition download (day : day_arg) (station : string)
    (download_minute : bool) : M world unit :=
  let* day := match day with
         | DayStr s => lift (dateutil_parse s)
         | DayDatetime d => ret d
         end in
  let url := BASE_URL ++ str_of_nat (year day) ++ "/"
             ++ zfill 2 (str_of_nat (month day)) ++ "/"
             ++ zfill 2 (str_of_nat (download_rego.day day)) ++ "/" in
  let* station_url := search_hrefs url (lower station) in
  let* station_dir := item0 station_url in
  let url := url ++ station_dir ++ "ut"
             ++ zfill 2 (str_of_nat (hour day)) ++ "/" in
  let* there := rego_exists in
  let* _ := (if negb there then rego_mkdir else ret tt) in
  if download_minute then
    let* file_names := search_hrefs url (strftime_Ymd_HM day) in
    let* file_name := item0 file_names in
    let* content := requests_get (url ++ file_name) false in
    write_file file_name content
  else
    let* file_names := search_hrefs url "" in
    for_each file_names
      (fun file_name =>
         let* content := requests_get (url ++ file_name) false in
         write_file file_name content).

End Code.

End download_rego.

(** ** [asilib/imager.py] *)

Module imager.
Import Py.

Definition supported_arrays : list string := ["REGO"; "THEMIS"].

(** A naive [datetime] (and a pandas [Timestamp]), by its offset from
    [datetime.min] in microseconds. *)
Definition datetime : Type := Z.

Definition us_per_hour : Z := 3600000000.

(** [t.replace(minute=0, second=0, microsecond=0)] *)
Definition replace_to_hour (t : datetime) : datetime :=
  (t - t mod us_per_hour)%Z.

(** pandas keeps a time (a [Timestamp], the entries of a [DatetimeIndex])
    as a signed 64-bit count of nanoseconds from 1970-01-01, which is
    719162 days after [datetime.min]: it has the times from
    1677-09-21 00:12:43.145225 to 2262-04-11 23:47:16.854775, and turning
    any other [datetime] into one raises [OutOfBoundsDatetime]. *)
Definition epoch : datetime := (719162 * 86400000000)%Z.

Definition Timestamp_min : datetime := (epoch - 9223372036854775)%Z.

Definition Timestamp_max : datetime := (epoch + 9223372036854775)%Z.

Definition in_bounds (t : datetime) : bool :=
  (Timestamp_min <=? t)%Z && (t <=? Timestamp_max)%Z.

Definition OutOfBoundsDatetime : exn :=
  OtherError "OutOfBoundsDatetime" "Out of bounds nanosecond timestamp".

(** The times [start], [start + 1h], ... up to [end]; none when [end] is
    before [start]. *)
Definition hours_between (start end_ : datetime) : list datetime :=
  if (start <=? end_)%Z then
    map (fun k : nat => (start + Z.of_nat k * us_per_hour)%Z)
        (seq 0 (Z.to_nat ((end_ - start) / us_per_hour + 1)))
  else [].

(** [pd.date_range(start=start, end=end, freq='H')]: both ends are turned
    into [Timestamp]s, then the range is [hours_between] them. *)
Definition date_range_H (start end_ : datetime) : result (list datetime) :=
  if in_bounds start && in_bounds end_ then Ok (hours_between start end_)
  else Raise OutOfBoundsDatetime.

(** [pd.to_datetime(ts)] on a list of [datetime]s *)
Definition to_datetime (ts : list datetime) : result (list datetime) :=
  if forallb in_bounds ts then Ok ts else Raise OutOfBoundsDatetime.

(** [sorted(set(ts))] *)
Fixpoint insert_sorted (t : Z) (ts : list Z) : list Z :=
  match ts with
  | [] => [t]
  | u :: ts' =>
      if (t <? u)%Z then t :: u :: ts'
      else if (t =? u)%Z then u :: ts'
      else u :: insert_sorted t ts'
  end.

Definition sorted_set (ts : list Z) : list Z := foldr insert_sorted [] ts.

(** The [stations] attribute: [None], text, or another collection, taken in
    its iteration order. *)
Inductive stations_val : Type :=
  | StationsNone
  | StationsStr (s : string)
  | StationsSeq (l : list string).

(** A cell of the availability table. *)
Inductive cell : Type :=
  | NaN
  | Text (s : string).

(** A [pd.DataFrame]: the column labels, and the rows in index order, each
    with its label and one cell per column. *)
Record DataFrame : Type := Frame {
  columns : list datetime;
  rows : list (string * list cell)
}.

(** [pd.DataFrame(index=index, columns=columns)]: every cell is NaN; with
    [index=None] the frame has no row. *)
Definition new_DataFrame (index : option (list string))
    (cols : list datetime) : DataFrame :=
  Frame cols (map (fun label => (label, repeat NaN (length cols)))
                  (default [] index)).

(** [df.replace(np.nan, value, inplace=True)] *)
Definition replace_nan (value : string) (df : DataFrame) : DataFrame :=
  Frame (columns df)
        (map (fun row : string * list cell =>
                (row.1, map (fun c => match c with
                                      | NaN => Text value
                                      | Text s => Text s
                                      end) row.2))
             (rows df)).

Definition set_cells (cols labels : list datetime) (value : string)
    (cells : list cell) : list cell :=
  zip_with (fun (col : datetime) (c : cell) =>
              if bool_decide (col ∈ labels) then Text value else c)
           cols cells.

(** A new column [label], NaN in every row, unless there is one. *)
Definition add_column (df : DataFrame) (label : datetime) : DataFrame :=
  if bool_decide (label ∈ columns df) then df
  else Frame (columns df ++ [label])%list
         (map (fun row : string * list cell => (row.1, (row.2 ++ [NaN])%list))
              (rows df)).

(** [df.loc[label, labels] = value] (pandas 1.1 and later): the labels of
    [labels] that are no column yet are added as columns, after the others
    and NaN in every row; then every row labelled [label] gets [value] in
    the columns [labels]; when no row has that label the frame is enlarged
    by a new row, NaN outside these columns. *)
Definition loc_set (label : string) (labels : list datetime) (value : string)
    (df : DataFrame) : DataFrame :=
  let df := foldl add_column df labels in
  if bool_decide (label ∈ (rows df).*1) then
    Frame (columns df)
      (map (fun row : string * list cell =>
              if String.eqb row.1 label
              then (row.1, set_cells (columns df) labels value row.2)
              else row)
           (rows df))
  else
    Frame (columns df)
      (rows df ++ [(label, set_cells (columns df) labels value
                             (repeat NaN (length (columns df))))])%list.

(** [d[key] = value] on a [dict], which keeps insertion order. *)
Fixpoint dict_set {V} (key : string) (value : V) (d : list (string * V))
  : list (string * V) :=
  match d with
  | [] => [(key, value)]
  | (k, v) :: d' =>
      if String.eqb k key then (k, value) :: d'
      else (k, v) :: dict_set key value d'
  end.

(** [d[key]] *)
Fixpoint dict_get {S V} (key : string) (d : list (string * V)) : M S V :=
  match d with
  | [] => raise (KeyError key)
  | (k, v) :: d' => if String.eqb k key then ret v else dict_get key d'
  end.

(** The text [Imager.load] looks for in a [FileNotFoundError]. *)
Definition no_data_marker : string := "ASI data not found for station".

Section Code.

(** Image frames and calibration data, which the class only stores. *)
Variables Frames Cal : Type.

(** What a caller may pass as a time range. *)
Variable RawTimeRange : Type.

(** [asilib.io.load._validate_time_range] *)
Variable _validate_time_range : RawTimeRange -> result (list datetime).

(** [asilib.io.load.get_frames(time_range, mission, station)], which gives
    the times and the frames *)
Variable get_frames :
  option (list datetime) -> string -> string -> result (list datetime * Frames).

(** [asilib.io.load.load_cal(mission, station)] *)
Variable load_cal : string -> string -> result Cal.

(** The rows of [asilib/data/asi_stations.csv]: array and station. *)
Variable asi_stations_csv : list (string * string).

(** The value of [self.data[station]]. *)
Record station_data : Type := StationData {
  times : list datetime;
  frames : Frames;
  cal : Cal
}.

(** An [Imager] object.  An attribute that is not set is [None] here;
    [time_range], once set, holds Python's [None] or a list of times. *)
Record Imager : Type := MkImager {
  array : string;
  stations : stations_val;
  time_range : option (option (list datetime));
  array_attributes : list (string * string);
  data : option (list (string * station_data));
  data_availability_dates : option (list datetime);
  data_availability : option DataFrame
}.

(** The calls made to the loaders of [asilib.io.load]. *)
Inductive call : Type :=
  | CallGetFrames (time_range : option (list datetime)) (array station : string)
  | CallLoadCal (array station : string).

(** The object a method runs on, and the calls made so far, oldest first. *)
Record state : Type := State {
  self : Imager;
  calls : list call
}.

Definition get_self : M state Imager := fun st => (Ok (self st), st).

Definition set_self (f : Imager -> Imager) : M state unit :=
  fun st => (Ok tt, State (f (self st)) (calls st)).

Definition log_call (c : call) : M state unit :=
  fun st => (Ok tt, State (self st) (calls st ++ [c])).

Definition set_stations (v : stations_val) (im : Imager) : Imager :=
  MkImager (array im) v (time_range im) (array_attributes im) (data im)
    (data_availability_dates im) (data_availability im).

Definition set_data (v : list (string * station_data)) (im : Imager) : Imager :=
  MkImager (array im) (stations im) (time_range im) (array_attributes im)
    (Some v) (data_availability_dates im) (data_availability im).

Definition set_data_availability_dates (v : list datetime) (im : Imager)
  : Imager :=
  MkImager (array im) (stations im) (time_range im) (array_attributes im)
    (data im) (Some v) (data_availability im).

Definition set_data_availability (v : DataFrame) (im : Imager) : Imager :=
  MkImager (array im) (stations im) (time_range im) (array_attributes im)
    (data im) (data_availability_dates im) (Some v).

(** Reading [self.time_range] and [self.data]. *)
Definition self_time_range : M state (option (list datetime)) :=
  let* im := get_self in
  match time_range im with
  | Some v => ret v
  | None =>
      raise (AttributeError "'Imager' object has no attribute 'time_range'")
  end.

Definition self_data : M state (list (string * station_data)) :=
  let* im := get_self in
  match data im with
  | Some v => ret v
  | None => raise (AttributeError "'Imager' object has no attribute 'data'")
  end.

Definition self_data_availability : M state DataFrame :=
  let* im := get_self in
  match data_availability im with
  | Some v => ret v
  | None =>
      raise (AttributeError
               "'Imager' object has no attribute 'data_availability'")
  end.

Definition _load_array_attributes (array : string) : list (string * string) :=
  filter (fun row : string * string => upper row.1 = array) asi_stations_csv.

Definition _check_array_code (array : string) : result unit :=
  if bool_decide (array ∈ supported_arrays) then Ok tt
  else Raise (AssertionError
                (array ++ " array code is invalid, must be  in "
                 ++ "['REGO', 'THEMIS']. Case insensitive.")).

Definition __init__ (array : string) (stations : stations_val)
    (time_range : option RawTimeRange) : result Imager :=
  let array := upper array in
  match
    match time_range with
    | None => Ok None
    | Some raw =>
        match _validate_time_range raw with
        | Ok v => Ok (Some v)
        | Raise e => Raise e
        end
    end
  with
  | Raise e => Raise e
  | Ok time_range =>
      let array_attributes := _load_array_attributes array in
      match _check_array_code array with
      | Raise e => Raise e
      | Ok _ =>
          Ok (MkImager array stations (Some time_range) array_attributes
                None None None)
      end
  end.

(** [hasattr(self, 'time_range')] *)
Definition hasattr_time_range (im : Imager) : bool :=
  match time_range im with
  | Some _ => true
  | None => false
  end.

Definition _check_time_range_exists (time_range : option RawTimeRange)
  : M state unit :=
  let* im := get_self in
  if is_None time_range && negb (hasattr_time_range im)
  then raise (AttributeError
                ("Imager.time_range not found. It must be supplied "
                 ++ "to __init__() or the called method"))
  else ret tt.

Definition download (time_range : option RawTimeRange) : M state unit :=
  let* _ := _check_time_range_exists time_range in
  (* the branches on [self.array] only import the download functions *)
  ret tt.

(** The body of the station loops of [load]; the three loops have the same
    body. *)
Definition load_station (station : string) : M state unit :=
  let* time_range := self_time_range in
  let* im := get_self in
  let* _ := log_call (CallGetFrames time_range (array im) station) in
  match get_frames time_range (array im) station with
  | Raise err =>
      match err with
      | FileNotFoundError _ =>
          if str_in no_data_marker (str_of_exn err) then ret tt (* continue *)
          else raise err
      | _ => raise err
      end
  | Ok (times, frames) =>
      let* _ := log_call (CallLoadCal (array im) station) in
      let* cal := lift (load_cal (array im) station) in
      let* d := self_data in
      set_self (set_data (dict_set station (StationData times frames cal) d))
  end.

(** [self.time_range[0]] and [self.time_range[-1]] *)
Definition subscript (from_end : bool) (v : option (list datetime))
  : M state datetime :=
  match v with
  | None => raise (TypeError "'NoneType' object is not subscriptable")
  | Some l =>
      match (if from_end then last l else head l) with
      | Some t => ret t
      | None => raise (IndexError "list index out of range")
      end
  end.

(** The body of the loop over [self.data.keys()]. *)
Definition mark_loaded (station : string) : M state unit :=
  let* d := self_data in
  let* entry := dict_get station d in
  let zeroed_times := map replace_to_hour (times entry) in
  let* unique_hours := lift (to_datetime (sorted_set zeroed_times)) in
  let* df := self_data_availability in
  set_self (set_data_availability (loc_set station unique_hours "Loaded" df)).

(** The first half of [load]: [self.data = {}] and the loop over the
    stations. *)
Definition load_stations : M state unit :=
  let* _ := set_self (set_data []) in
  let* im := get_self in
  match stations im with
  | StationsNone =>
      for_each (map snd (array_attributes im)) load_station
  | StationsStr s =>
      let* _ := set_self (set_stations (StationsStr (upper s))) in
      let* _ := set_self (set_stations (StationsSeq (split (upper s)))) in
      for_each (split (upper s)) load_station
  | StationsSeq l =>
      let* _ := set_self (set_stations (StationsSeq l)) in
      let* _ := set_self (set_stations (StationsSeq (map upper l))) in
      for_each (map upper l) load_station
  end.

(** The second half of [load]: the availability table. *)
Definition build_data_availability : M state unit :=
  let* time_range := self_time_range in
  let* start := subscript false time_range in
  let* end_ := subscript true time_range in
  let* dates :=
    lift (date_range_H (replace_to_hour start) (replace_to_hour end_)) in
  let* _ := set_self (set_data_availability_dates dates) in
  let* im := get_self in
  let* index := match stations im with
                | StationsNone => ret None
                | StationsSeq l => ret (Some l)
                | StationsStr _ =>
                    raise (TypeError
                             "Index(...) must be called with a collection")
                end in
  let* _ := set_self (set_data_availability (new_DataFrame index dates)) in
  let* df := self_data_availability in
  let* _ := set_self (set_data_availability (replace_nan "-" df)) in
  let* d := self_data in
  for_each (map fst d) mark_loaded.

Definition load (time_range : option RawTimeRange) : M state unit :=
  let* _ := _check_time_range_exists time_range in
  let* _ := load_stations in
  build_data_availability.

End Code.

Arguments StationData {Frames Cal} _ _ _.
Arguments times {Frames Cal} _.
Arguments frames {Frames Cal} _.
Arguments cal {Frames Cal} _.
Arguments MkImager {Frames Cal} _ _ _ _ _ _ _.
Arguments array {Frames Cal} _.
Arguments stations {Frames Cal} _.
Arguments time_range {Frames Cal} _.
Arguments array_attributes {Frames Cal} _.
Arguments data {Frames Cal} _.
Arguments data_availability_dates {Frames Cal} _.
Arguments data_availability {Frames Cal} _.
Arguments State {Frames Cal} _ _.
Arguments self {Frames Cal} _.
Arguments calls {Frames Cal} _.
Arguments set_stations {Frames Cal} _ _.
Arguments set_data {Frames Cal} _ _.
Arguments set_data_availability_dates {Frames Cal} _ _.
Arguments set_data_availability {Frames Cal} _ _.
Arguments hasattr_time_range {Frames Cal} _.

End imager.


(** ** The words of the specification *)

Module spec.
Import Py.

(** An entry name is retained by the resolver for a pattern: it is not the
    parent-directory link and the pattern is in it ([in] of Python), letter
    case aside. *)
Definition retained (pattern name : string) : Prop :=
  name ≠ "../" ∧ str_in (lower pattern) (lower name) = true.

#[global] Instance retained_dec (pattern name : string) :
  Decision (retained pattern name).
Proof. unfold retained. apply _. Defined.

(** The same test, as [search_hrefs] computes it. *)
Definition retainedb (pattern name : string) : bool :=
  negb (String.eqb name "../") && str_in (lower pattern) (lower name).

(** The listing of a day and of an hour of a station, as [download] builds
    their URLs. *)
Definition day_url (d : download_rego.datetime) : string :=
  download_rego.BASE_URL ++ str_of_nat (download_rego.year d) ++ "/"
  ++ zfill 2 (str_of_nat (download_rego.month d)) ++ "/"
  ++ zfill 2 (str_of_nat (download_rego.day d)) ++ "/".

Definition hour_url (d : download_rego.datetime) (station_dir : string)
  : string :=
  day_url d ++ station_dir ++ "ut"
  ++ zfill 2 (str_of_nat (download_rego.hour d)) ++ "/".

(** The Station-No-Data condition. *)
Definition station_no_data (e : exn) : bool :=
  match e with
  | FileNotFoundError msg => str_in "ASI data not found for station" msg
  | _ => false
  end.

(** Text without a lower-case letter. *)
Definition is_uppercase (s : string) : Prop := upper s = s.



(** The [stations] attribute once [load] has normalized it. *)
Definition normalized (v : imager.stations_val) : imager.stations_val :=
  match v with
  | imager.StationsNone => imager.StationsNone
  | imager.StationsStr s => imager.StationsSeq (split (upper s))
  | imager.StationsSeq l => imager.StationsSeq (map upper l)
  end.

(** Every run of [m] takes a state to one related to it by [R], however it
    ends. *)
Definition steps {S A} (R : relation S) (m : M S A) : Prop :=
  ∀ st, R st (m st).2.

(** A run of [m] and a run of [m'] from states related by [R] end with the
    same result, in states related by [R]. *)
Definition agree {S A} (R : relation S) (m m' : M S A) : Prop :=
  ∀ st st', R st st' → (m st).1 = (m' st').1 ∧ R (m st).2 (m' st').2.

Section Loaders.

Variables Frames Cal : Type.
Variable get_frames :
  option (list imager.datetime) → string → string
  → result (list imager.datetime * Frames).
Variable load_cal : string → string → result Cal.

(** The stations [load] goes through, in order. *)
Definition stations_to_load (im : imager.Imager Frames Cal) : list string :=
  match imager.stations im with
  | imager.StationsNone => map snd (imager.array_attributes im)
  | imager.StationsStr s => split (upper s)
  | imager.StationsSeq l => map upper l
  end.

(** A station is skipped: the Frame Loader reports Station-No-Data. *)
Definition skipped (time_range : option (list imager.datetime))
    (array station : string) : Prop :=
  ∃ e, get_frames time_range array station = Raise e
       ∧ station_no_data e = true.

(** A station is loaded: its frames and its calibration are. *)
Definition loaded (time_range : option (list imager.datetime))
    (array station : string) : Prop :=
  ∃ times frames cal,
    get_frames time_range array station = Ok (times, frames)
    ∧ load_cal array station = Ok cal.

(** Loading a station raises an error other than Station-No-Data from the
    Frame Loader. *)
Definition fails_with (time_range : option (list imager.datetime))
    (array station : string) (e : exn) : Prop :=
  (get_frames time_range array station = Raise e ∧ station_no_data e = false)
  ∨ (∃ times frames,
       get_frames time_range array station = Ok (times, frames)
       ∧ load_cal array station = Raise e).

(** The cell of the availability table for a station and an hour:
    [Loaded] when the station has a frame in that hour, the marker
    otherwise. *)
Definition expected_cell (time_range : option (list imager.datetime))
    (array station : string) (hour : imager.datetime) : imager.cell :=
  match get_frames time_range array station with
  | Ok (times, _) =>
      if bool_decide (hour ∈ map imager.replace_to_hour times)
      then imager.Text "Loaded" else imager.Text "-"
  | Raise _ => imager.Text "-"
  end.

(** The station-by-hour table. *)
Definition expected_table (time_range : option (list imager.datetime))
    (array : string) (stations : list string) (hours : list imager.datetime)
  : imager.DataFrame :=
  imager.Frame hours
    (map (λ station,
            (station, map (expected_cell time_range array station) hours))
         stations).

(** The table while the stations [done] have been marked. *)
Definition marked_cell (tr : option (list imager.datetime)) (arr : string)
    (done : list string) (station : string) (hour : imager.datetime)
  : imager.cell :=
  if bool_decide (station ∈ done)
  then expected_cell tr arr station hour
  else imager.Text "-".

Definition marked_table (tr : option (list imager.datetime)) (arr : string)
    (done l : list string) (dates : list imager.datetime)
  : imager.DataFrame :=
  imager.Frame dates (map (λ s, (s, map (marked_cell tr arr done s) dates)) l).

(** The relations used below: the state keeps an attribute, and the calls
    made so far stay made. *)
Definition keeps_time_range : relation (imager.state Frames Cal) :=
  λ st st',
    imager.time_range (imager.self st') = imager.time_range (imager.self st).

Definition keeps_stations : relation (imager.state Frames Cal) :=
  λ st st',
    imager.stations (imager.self st') = imager.stations (imager.self st).

Definition grows : relation (imager.state Frames Cal) :=
  λ st st', ∃ more, imager.calls st' = (imager.calls st ++ more)%list.

(** The state keeps what [__init__] settled: the array, its rows of the
    station table and the time range. *)
Definition keeps_array : relation (imager.state Frames Cal) :=
  λ st st',
    imager.array (imager.self st') = imager.array (imager.self st)
    ∧ imager.array_attributes (imager.self st')
      = imager.array_attributes (imager.self st)
    ∧ imager.time_range (imager.self st')
      = imager.time_range (imager.self st).

(** What [load] reads of the object before it resets the rest. *)
Definition same_inputs : relation (imager.state Frames Cal) :=
  λ st st',
    imager.array (imager.self st) = imager.array (imager.self st')
    ∧ imager.array_attributes (imager.self st)
      = imager.array_attributes (imager.self st')
    ∧ imager.time_range (imager.self st)
      = imager.time_range (imager.self st')
    ∧ normalized (imager.stations (imager.self st))
      = normalized (imager.stations (imager.self st')).

(** Two states that differ at most in the availability table, its dates and
    the calls made. *)
Definition alike : relation (imager.state Frames Cal) :=
  λ st st',
    imager.array (imager.self st) = imager.array (imager.self st')
    ∧ imager.stations (imager.self st) = imager.stations (imager.self st')
    ∧ imager.time_range (imager.self st)
      = imager.time_range (imager.self st')
    ∧ imager.array_attributes (imager.self st)
      = imager.array_attributes (imager.self st')
    ∧ imager.data (imager.self st) = imager.data (imager.self st').

(** Two alike states of an object of array [a] with the time range
    [tr]. *)
Definition alike_at (a : string) (tr : option (list imager.datetime))
  : relation (imager.state Frames Cal) :=
  λ st st',
    alike st st'
    ∧ imager.array (imager.self st) = a
    ∧ imager.time_range (imager.self st) = Some tr.

(** What marking stations does to an object: it changes the availability
    table only, where it adds no column but the hour of a loaded frame. *)
Definition marks (im im' : imager.Imager Frames Cal) : Prop :=
  imager.data im' = imager.data im
  ∧ imager.data_availability_dates im' = imager.data_availability_dates im
  ∧ ∀ df, imager.data_availability im = Some df →
      ∃ df' more,
        imager.data_availability im' = Some df'
        ∧ imager.columns df' = (imager.columns df ++ more)%list
        ∧ ∀ h, h ∈ more →
            ∃ d k v t, imager.data im = Some d ∧ (k, v) ∈ d
                       ∧ t ∈ imager.times v
                       ∧ imager.replace_to_hour t = h.

(** The calls into [asilib.io.load] that one station takes. *)
Definition calls_for (time_range : option (list imager.datetime))
    (array station : string) : list imager.call :=
  imager.CallGetFrames time_range array station
  :: match get_frames time_range array station with
     | Ok _ => [imager.CallLoadCal array station]
     | Raise _ => []
     end.

End Loaders.

Arguments stations_to_load {Frames Cal} _.
Arguments keeps_time_range {Frames Cal} _ _.
Arguments keeps_stations {Frames Cal} _ _.
Arguments grows {Frames Cal} _ _.
Arguments keeps_array {Frames Cal} _ _.
Arguments same_inputs {Frames Cal} _ _.
Arguments alike {Frames Cal} _ _.
Arguments alike_at {Frames Cal} _ _ _ _.
Arguments marks {Frames Cal} _ _.

End spec.

(** ** What a call of [download] does *)

Module download_rego_plan.
Import Py spec download_rego.

(** The world after one more request, and after one more file. *)
Definition requested (url : string) (w : world) : world :=
  World (data_dir_exists w) (rego_dir_exists w) (rego_files w)
    (requests w ++ [url]).

Definition written (name content : string) (w : world) : world :=
  World (data_dir_exists w) (rego_dir_exists w)
    (<[name := content]> (rego_files w)) (requests w).

(** Writing files one after the other. *)
Definition apply_writes (writes : list (string * string))
    (files : gmap string string) : gmap string string :=
  foldl (fun m (nc : string * string) => <[nc.1 := nc.2]> m) files writes.

(** What a call does, apart from the world it starts in: its result, the
    URLs it requests, the files it writes, in order, and whether it leaves
    the [rego] directory made. *)
Record outcome : Type := Outcome {
  result_of : result unit;
  requests_of : list string;
  writes_of : list (string * string);
  rego_made : bool
}.

Definition after (o : outcome) (w : world) : world :=
  World (data_dir_exists w) (rego_dir_exists w || rego_made o)
    (apply_writes (writes_of o) (rego_files w))
    (requests w ++ requests_of o).

Section Archive.

Variable remote : bool → string → reply.
Variable anchor_texts : string → list string.
Variable dateutil_parse : string → result datetime.

(** What [search_hrefs] returns or raises. *)
Definition listing (url pattern : string) : result (list string) :=
  match remote true url with
  | Fails e => Raise e
  | Response _ content =>
      match filter (retained pattern) (anchor_texts content) with
      | [] => Raise (NotADirectoryError (not_found_message url pattern))
      | names => Ok names
      end
  end.

(** The loop over the files of an hour: fetch and write each, up to the
    first fetch that fails. *)
Fixpoint fetch_plan (url : string) (names : list string) : outcome :=
  match names with
  | [] => Outcome (Ok tt) [] [] false
  | name :: names' =>
      match remote false (url ++ name) with
      | Fails e => Outcome (Raise e) [url ++ name] [] false
      | Response _ content =>
          let o := fetch_plan url names' in
          Outcome (result_of o) ((url ++ name) :: requests_of o)
            ((name, content) :: writes_of o) false
      end
  end.

(** [download], from whether the data directory exists. *)
Definition plan (data_dir : bool) (day : day_arg) (station : string)
    (download_minute : bool) : outcome :=
  match match day with
        | DayStr s => dateutil_parse s
        | DayDatetime d => Ok d
        end with
  | Raise e => Outcome (Raise e) [] [] false
  | Ok d =>
      match listing (day_url d) (lower station) with
      | Raise e => Outcome (Raise e) [day_url d] [] false
      | Ok [] =>
          Outcome (Raise (IndexError "list index out of range"))
            [day_url d] [] false
      | Ok (station_dir :: _) =>
          let url := hour_url d station_dir in
          if negb data_dir then
            Outcome (Raise (FileNotFoundError "rego")) [day_url d] [] false
          else if download_minute then
            match listing url (strftime_Ymd_HM d) with
            | Raise e => Outcome (Raise e) [day_url d; url] [] true
            | Ok [] =>
                Outcome (Raise (IndexError "list index out of range"))
                  [day_url d; url] [] true
            | Ok (file_name :: _) =>
                match remote false (url ++ file_name) with
                | Fails e =>
                    Outcome (Raise e) [day_url d; url; url ++ file_name] [] true
                | Response _ content =>
                    Outcome (Ok tt) [day_url d; url; url ++ file_name]
                      [(file_name, content)] true
                end
            end
          else
            match listing url "" with
            | Raise e => Outcome (Raise e) [day_url d; url] [] true
            | Ok file_names =>
                let o := fetch_plan url file_names in
                Outcome (result_of o) (day_url d :: url :: requests_of o)
                  (writes_of o) true
            end
      end
  end.

End Archive.

End download_rego_plan.

(** ** An archive to try the code on *)

Module example.
Import Py download_rego.

Definition luck_day : datetime := Datetime 2017 4 13 5 10 0 0.

Definition luck_hour_url : string := spec.hour_url luck_day "luck_rego-649/".

Definition image_0509 : string := "20170413_0509_luck_rego-649_6300.pgm.gz".

Definition image_0510 : string := "20170413_0510_luck_rego-649_6300.pgm.gz".

(** The archive holds one day of two stations; of the hour 05 of LUCK it
    lists two files and serves the second. *)
Definition remote (allow_redirects : bool) (url : string) : reply :=
  if String.eqb url (spec.day_url luck_day) then Response 200 "day"
  else if String.eqb url luck_hour_url then Response 200 "hour"
  else if String.eqb url (luck_hour_url ++ image_0510) then Response 200 "image"
  else Response 404 "Not Found".

Definition anchor_texts (content : string) : list string :=
  if String.eqb content "day" then ["../"; "gill_rego-652/"; "luck_rego-649/"]
  else if String.eqb content "hour" then ["../"; image_0509; image_0510]
  else [].

Definition dateutil_parse (s : string) : result datetime :=
  Raise (OtherError "ParserError" s).

(** The data directory exists and is empty. *)
Definition fresh : world := World true false ∅ [].

(** Two THEMIS stations are known; the Frame Loader has frames of one hour
    for GILL and none for ATHA. *)
Definition asi_stations_csv : list (string * string) :=
  [("THEMIS", "ATHA"); ("THEMIS", "GILL"); ("REGO", "LUCK")].

(** 2008-03-09 07:00, the day 733109 days after [datetime.min]. *)
Definition hour_7 : imager.datetime :=
  (733109 * 86400000000 + 7 * imager.us_per_hour)%Z.

Definition minutes (n : Z) : Z := (n * 60000000)%Z.

Definition _validate_time_range (raw : list imager.datetime)
  : result (list imager.datetime) := Ok raw.

Definition get_frames (time_range : option (list imager.datetime))
    (array station : string) : result (list imager.datetime * unit) :=
  if String.eqb station "GILL" then
    Ok ([hour_7 + minutes 39; hour_7 + minutes 39 + 3000000]%Z, tt)
  else
    Raise (FileNotFoundError
             (array ++ " ASI data not found for station " ++ station)).

Definition load_cal (array station : string) : result unit := Ok tt.

(** A time range within one hour, and one that spans two hours. *)
Definition one_hour : list imager.datetime :=
  [hour_7 + minutes 39; hour_7 + minutes 40]%Z.

Definition two_hours : list imager.datetime :=
  [hour_7 + minutes 39; hour_7 + imager.us_per_hour + minutes 2]%Z.

(** [Imager('THEMIS', stations, time_range)] *)
Definition themis (stations : imager.stations_val)
    (time_range : option (list imager.datetime)) : imager.Imager unit unit :=
  imager.MkImager "THEMIS" stations (Some time_range)
    [("THEMIS", "ATHA"); ("THEMIS", "GILL")] None None None.

Definition started (im : imager.Imager unit unit) : imager.state unit unit :=
  imager.State im [].


Definition no_data_dir : world := World false false ∅ [].

(** A Calibration Loader that has no file for GILL. *)
Definition load_cal_missing (array station : string) : result unit :=
  if String.eqb station "GILL"
  then Raise (FileNotFoundError "calibration file not found")
  else Ok tt.

(** What the archive serves for the files of the hour. *)
Definition body (name : string) : string :=
  if String.eqb name image_0510 then "image" else "Not Found".

End example.

(** * Properties *)

(** ** Python text *)

Module PyFacts.
Import Py spec.

Lemma append_nil_l (s : string) : "" ++ s = s.
Proof. reflexivity. Qed.

Lemma append_cons (c : ascii) (a b : string) :
  String c a ++ b = String c (a ++ b).
Proof. reflexivity. Qed.

Lemma append_nil_r (s : string) : s ++ "" = s.
Proof.
  induction s as [|c s IH]; [done | by rewrite append_cons, IH].
Qed.

Lemma append_assoc (a b c : string) : (a ++ b) ++ c = a ++ (b ++ c).
Proof.
  induction a as [|x a IH]; [done | by rewrite !append_cons, IH].
Qed.

Lemma startswith_spec (p s : string) :
  startswith p s = true ↔ ∃ after, s = p ++ after.
Proof.
  revert s. induction p as [|a p IH]; intros s.
  - split; [intros _; by exists s | done].
  - destruct s as [|b s]; cbn [startswith].
    + split; [done | intros [after H]; by rewrite append_cons in H].
    + destruct (Ascii.eqb_spec a b) as [->|Hne].
      * rewrite IH. split; intros [after H]; exists after.
        -- by rewrite append_cons, H.
        -- rewrite append_cons in H. congruence.
      * split; [done | intros [after H]; rewrite append_cons in H; congruence].
Qed.

Lemma str_in_spec (p s : string) :
  str_in p s = true ↔ ∃ before after, s = before ++ p ++ after.
Proof.
  induction s as [|c s IH]; cbn [str_in].
  - destruct (startswith p "") eqn:E.
    + split; [intros _ | done].
      apply startswith_spec in E as [after ->]. by exists "", after.
    + split; [done | intros (before & after & H)]. exfalso.
      destruct before as [|? ?]; [| by rewrite append_cons in H].
      rewrite append_nil_l in H.
      assert (startswith p "" = true) as E'
        by (apply startswith_spec; by exists after).
      congruence.
  - destruct (startswith p (String c s)) eqn:E.
    + split; [intros _ | done].
      apply startswith_spec in E as [after ->]. by exists "", after.
    + rewrite IH. split.
      * intros (before & after & ->). by exists (String c before), after.
      * intros (before & after & H). destruct before as [|x before].
        -- rewrite append_nil_l in H.
           assert (startswith p (String c s) = true) as E'
             by (apply startswith_spec; by exists after).
           congruence.
        -- exists before, after. rewrite append_cons in H. congruence.
Qed.

Lemma retainedb_spec (pattern name : string) :
  retainedb pattern name = true ↔ retained pattern name.
Proof.
  unfold retainedb, retained. rewrite andb_true_iff, negb_true_iff.
  destruct (String.eqb_spec name "../") as [->|Hne].
  - split; intros [? _]; done.
  - split; intros [_ ?]; done.
Qed.

Lemma str_in_empty (s : string) : str_in "" s = true.
Proof. destruct s; reflexivity. Qed.

Lemma retained_empty (name : string) : retained "" name ↔ name ≠ "../".
Proof.
  unfold retained. cbn [lower]. rewrite str_in_empty. tauto.
Qed.

(** [retained], with what [in] means spelled out. *)
Lemma retained_spec (pattern name : string) :
  retained pattern name
  ↔ name ≠ "../"
    ∧ ∃ before after, lower name = before ++ lower pattern ++ after.
Proof. unfold retained. by rewrite str_in_spec. Qed.








Lemma upper_char_idem (c : ascii) : upper_char (upper_char c) = upper_char c.
Proof.
  unfold upper_char. destruct (is_lower_letter c) eqn:E; [| by rewrite E].
  unfold is_lower_letter in *.
  apply andb_true_iff in E as [H1%Nat.leb_le H2%Nat.leb_le].
  rewrite nat_ascii_embedding by lia.
  assert ((97 <=? nat_of_ascii c - 32)%nat = false) as ->
    by (apply Nat.leb_gt; lia).
  done.
Qed.

Lemma upper_idem (s : string) : upper (upper s) = upper s.
Proof.
  induction s as [|c s IH]; [done |].
  cbn [upper]. by rewrite upper_char_idem, IH.
Qed.

Lemma is_uppercase_chars (s : string) :
  is_uppercase s ↔ Forall (λ c, upper_char c = c) (list_ascii_of_string s).
Proof.
  unfold is_uppercase. induction s as [|c s IH]; cbn [upper list_ascii_of_string].
  - split; [intros _; constructor | done].
  - rewrite Forall_cons, <- IH. split; [intros [= ? ?] | intros [-> ->]]; done.
Qed.

(** The pieces [split] returns are made of characters of the text. *)
Lemma split_aux_chars (Q : ascii → Prop) (cur : list ascii) (s : string) :
  Forall Q cur → Forall Q (list_ascii_of_string s) →
  Forall (λ p, Forall Q (list_ascii_of_string p)) (split_aux cur s).
Proof.
  revert cur. induction s as [|c s IH]; intros cur Hcur Hs;
    cbn [split_aux list_ascii_of_string] in *.
  - destruct cur as [|x cur]; [constructor |].
    constructor; [| constructor].
    rewrite list_ascii_of_string_of_list_ascii. by apply Forall_rev.
  - apply Forall_cons in Hs as [Hc Hs]. destruct (is_space c).
    + destruct cur as [|x cur]; [by apply IH |].
      constructor; [| by apply IH].
      rewrite list_ascii_of_string_of_list_ascii. by apply Forall_rev.
    + apply IH; [by constructor | done].
Qed.

Lemma split_upper_uppercase (s : string) :
  Forall is_uppercase (split (upper s)).
Proof.
  unfold split.
  eapply Forall_impl; [apply (split_aux_chars (λ c, upper_char c = c)) |].
  - constructor.
  - apply is_uppercase_chars. apply upper_idem.
  - intros p Hp. by apply is_uppercase_chars.
Qed.

Lemma map_upper_uppercase (l : list string) : Forall is_uppercase (map upper l).
Proof.
  apply Forall_forall. intros x (y & -> & _)%list_elem_of_fmap.
  apply upper_idem.
Qed.

End PyFacts.

(** ** The REGO downloader *)

Module download_rego_facts.
Import Py spec PyFacts download_rego download_rego_plan.

Lemma match_hrefs_filter (pattern : string) (hrefs matched : list string) :
  match_hrefs pattern hrefs matched
  = (matched ++ filter (retained pattern) hrefs)%list.
Proof.
  unfold match_hrefs. revert matched.
  induction hrefs as [|href hrefs IH]; intros matched; cbn [fold_left].
  - by rewrite app_nil_r.
  - rewrite IH, filter_cons. fold (retainedb pattern href).
    destruct (retainedb pattern href) eqn:E.
    + rewrite decide_True by (by apply retainedb_spec).
      by rewrite <- app_assoc.
    + rewrite decide_False; [done |]. intros H%retainedb_spec. congruence.
Qed.

Lemma apply_writes_snoc (writes : list (string * string)) (n c : string)
    (files : gmap string string) :
  apply_writes (writes ++ [(n, c)]) files = <[n := c]> (apply_writes writes files).
Proof. unfold apply_writes. by rewrite foldl_app. Qed.

(** Files written again with the contents they hold are unchanged. *)
Lemma apply_writes_id (writes : list (string * string))
    (files : gmap string string) :
  (∀ n c, (n, c) ∈ writes → files !! n = Some c) →
  apply_writes writes files = files.
Proof.
  revert files. induction writes as [|[n c] writes IH]; intros files H; [done |].
  cbn. rewrite insert_id by (apply H; left).
  apply IH. intros n' c' Hin. apply H. by right.
Qed.

(** When equal names are written with equal contents, every written name
    holds its contents in the end. *)
Lemma apply_writes_lookup (writes : list (string * string))
    (files : gmap string string) (n c : string) :
  (∀ n c c', (n, c) ∈ writes → (n, c') ∈ writes → c = c') →
  (n, c) ∈ writes → apply_writes writes files !! n = Some c.
Proof.
  induction writes as [|[n' c'] writes IH] using rev_ind; intros Hfun Hin.
  - by apply elem_of_nil in Hin.
  - rewrite apply_writes_snoc. destruct (decide (n' = n)) as [->|Hne].
    + rewrite lookup_insert_eq. f_equal.
      apply (Hfun n); [apply elem_of_app; right; left | done].
    + rewrite lookup_insert_ne by done.
      apply elem_of_app in Hin as [Hin|Hin].
      * apply IH; [| done]. intros ? ? ? ? ?.
        eapply Hfun; apply elem_of_app; left; eassumption.
      * apply list_elem_of_singleton in Hin. congruence.
Qed.

(** A file either keeps its contents or holds what was written last. *)
Lemma apply_writes_other (writes : list (string * string))
    (files : gmap string string) (n : string) :
  apply_writes writes files !! n = files !! n
  ∨ ∃ c, (n, c) ∈ writes ∧ apply_writes writes files !! n = Some c.
Proof.
  induction writes as [|[n' c'] writes IH] using rev_ind; [by left |].
  rewrite apply_writes_snoc. destruct (decide (n' = n)) as [->|Hne].
  - right. exists c'. rewrite lookup_insert_eq. split; [| done].
    apply elem_of_app; right; left.
  - rewrite lookup_insert_ne by done. destruct IH as [IH|(c & Hin & IH)].
    + by left.
    + right. exists c. split; [apply elem_of_app; by left | done].
Qed.

Lemma filter_none {A} (P : A → Prop) `{!∀ x, Decision (P x)} (l : list A) :
  (∀ x, x ∈ l → ¬ P x) → filter P l = [].
Proof.
  induction l as [|x l IH]; intros Hno; [done |].
  rewrite filter_cons, decide_False by (apply Hno; left).
  apply IH. intros y Hy. apply Hno. by right.
Qed.

Section Archive.

Variable remote : bool → string → reply.
Variable anchor_texts : string → list string.
Variable dateutil_parse : string → result datetime.

Abbreviation search_hrefs :=
  (download_rego.search_hrefs remote anchor_texts).
Abbreviation download :=
  (download_rego.download remote anchor_texts dateutil_parse).
Abbreviation listing := (download_rego_plan.listing remote anchor_texts).
Abbreviation fetch_plan := (download_rego_plan.fetch_plan remote).
Abbreviation plan :=
  (download_rego_plan.plan remote anchor_texts dateutil_parse).

Lemma search_hrefs_eq (url pattern : string) (w : world) :
  search_hrefs url pattern w = (listing url pattern, requested url w).
Proof.
  unfold download_rego.search_hrefs, bind, requests_get,
    download_rego_plan.listing.
  fold (requested url w).
  destruct (remote true url) as [e|status content]; [done |].
  rewrite match_hrefs_filter, app_nil_l.
  by destruct (filter (retained pattern) (anchor_texts content)).
Qed.

Lemma for_each_fetch (url : string) (names : list string) (w : world) :
  data_dir_exists w = true → rego_dir_exists w = true →
  for_each names
    (fun file_name =>
       let* content := requests_get remote (url ++ file_name) false in
       write_file file_name content) w
  = (result_of (fetch_plan url names), after (fetch_plan url names) w).
Proof.
  revert w. induction names as [|name names IH]; intros [dd rd files reqs] Hdd Hrd;
    cbn in Hdd, Hrd; subst dd rd.
  - cbn. unfold ret, after. cbn. by rewrite app_nil_r.
  - cbn [for_each download_rego_plan.fetch_plan].
    unfold bind at 1. unfold bind at 1.
    unfold requests_get. cbn.
    destruct (remote false (url ++ name)) as [e|status content].
    + done.
    + cbn. rewrite IH by done. cbn. unfold after. cbn.
      by rewrite <- app_assoc.
Qed.

Lemma download_eq (day : day_arg) (station : string) (download_minute : bool)
    (w : world) :
  download day station download_minute w
  = (result_of (plan (data_dir_exists w) day station download_minute),
     after (plan (data_dir_exists w) day station download_minute) w).
Proof.
  destruct w as [dd rd files reqs].
  unfold download_rego.download, plan. cbn [data_dir_exists].
  unfold bind at 1.
  assert (
    match day with DayStr s => lift (dateutil_parse s) | DayDatetime d => ret d end
      (World dd rd files reqs)
    = (match day with DayStr s => dateutil_parse s | DayDatetime d => Ok d end,
       World dd rd files reqs)) as -> by (by destruct day).
  destruct (match day with DayStr s => dateutil_parse s | DayDatetime d => Ok d end)
    as [d|e]; [| unfold after; cbn; by rewrite app_nil_r, orb_false_r].
  fold (day_url d). unfold bind at 1. rewrite search_hrefs_eq.
  destruct (listing (day_url d) (lower station)) as [[|station_dir dirs]|e];
    [ unfold after; cbn; by rewrite orb_false_r
    | | unfold after; cbn; by rewrite orb_false_r ].
  unfold bind at 1. cbn [item0 ret]. unfold bind at 1, rego_exists at 1.
  unfold requested. cbn [data_dir_exists rego_dir_exists rego_files requests].
  unfold bind at 1.
  destruct dd; cbn [andb negb].
  2:{ unfold rego_mkdir, after. cbn. by rewrite orb_false_r. }
  assert ((if negb rd then rego_mkdir else ret tt)
            (World true rd files (reqs ++ [day_url d]))
          = (Ok tt, World true true files (reqs ++ [day_url d]))) as ->
    by (by destruct rd).
  fold (hour_url d station_dir).
  destruct download_minute.
  - unfold bind at 1. rewrite search_hrefs_eq.
    destruct (listing (hour_url d station_dir) (strftime_Ymd_HM d))
      as [[|file_name names]|e]; unfold after, requested; cbn;
      rewrite ?orb_true_r, <- ?app_assoc; try done.
    unfold bind, requests_get, write_file. cbn.
    destruct (remote false (hour_url d station_dir ++ file_name)); cbn;
      by rewrite ?orb_true_r, <- ?app_assoc.
  - unfold bind at 1. rewrite search_hrefs_eq.
    destruct (listing (hour_url d station_dir) "") as [names|e];
      unfold after, requested; cbn; rewrite ?orb_true_r, <- ?app_assoc; try done.
    rewrite for_each_fetch by done. unfold after. cbn.
    by rewrite ?orb_true_r, ?orb_false_r, <- ?app_assoc.
Qed.

(** ** The resolver *)

(** C5. When the listing of a URL is fetched and some entry is retained for
    the pattern, [search_hrefs] returns exactly the retained entries: the
    entry names of the listing that are not the parent-directory link and
    contain the pattern, letter case aside (with an empty pattern, all but
    the parent-directory link), as often and in the order they are listed. *)
Theorem search_hrefs_retained_in_order (url pattern : string) (status : Z)
    (content : string) (w : world) :
  remote true url = Response status content →
  filter (retained pattern) (anchor_texts content) ≠ [] →
  (search_hrefs url pattern w).1
  = Ok (filter (retained pattern) (anchor_texts content))
  ∧ (∀ name, name ∈ filter (retained pattern) (anchor_texts content)
             ↔ name ∈ anchor_texts content ∧ name ≠ "../"
               ∧ ∃ before after,
                   lower name = before ++ lower pattern ++ after)
  ∧ (pattern = "" →
     filter (retained pattern) (anchor_texts content)
     = filter (λ name, name ≠ "../") (anchor_texts content))
  ∧ sublist (filter (retained pattern) (anchor_texts content))
      (anchor_texts content).
Proof.
  intros Hget Hsome. rewrite search_hrefs_eq.
  unfold download_rego_plan.listing. rewrite Hget.
  split; [| split; [| split]].
  - cbn. by destruct (filter (retained pattern) (anchor_texts content)).
  - intros name. rewrite list_elem_of_filter, retained_spec. tauto.
  - intros ->. apply list_filter_iff. intros name. apply retained_empty.
  - apply sublist_filter.
Qed.

(** C2. [search_hrefs] never returns an empty list; when the listing is
    fetched and no entry is retained for the pattern it raises
    [NotADirectoryError] with a message that holds the URL and the pattern. *)
Theorem search_hrefs_no_match_raises (url pattern : string) (w : world) :
  (search_hrefs url pattern w).1 ≠ Ok []
  ∧ ∀ status content,
      remote true url = Response status content →
      (∀ name, name ∈ anchor_texts content → ¬ retained pattern name) →
      (search_hrefs url pattern w).1
      = Raise (NotADirectoryError (not_found_message url pattern))
      ∧ str_in url (not_found_message url pattern) = true
      ∧ str_in pattern (not_found_message url pattern) = true.
Proof.
  rewrite search_hrefs_eq. unfold download_rego_plan.listing. cbn [fst]. split.
  - destruct (remote true url) as [e|status content]; [done |].
    by destruct (filter (retained pattern) (anchor_texts content)).
  - intros status content -> Hnone.
    assert (filter (retained pattern) (anchor_texts content) = []) as ->.
    { by apply filter_none. }
    split; [done |]. unfold not_found_message. split; apply str_in_spec.
    + by exists "The url ",
        (" does not contain any hyper "
         ++ "references containing the search_pattern=" ++ dquote
         ++ pattern ++ dquote ++ ".").
    + exists ("The url " ++ url ++ " does not contain any hyper "
              ++ "references containing the search_pattern=" ++ dquote),
        (dquote ++ ".").
      by rewrite !append_assoc.
Qed.

(** ** The downloader *)

Lemma fetch_plan_writes (url : string) (names : list string) (n c : string) :
  (n, c) ∈ writes_of (fetch_plan url names) →
  url ++ n ∈ requests_of (fetch_plan url names)
  ∧ ∃ status, remote false (url ++ n) = Response status c.
Proof.
  induction names as [|name names IH]; cbn [download_rego_plan.fetch_plan].
  - intros Hin. by apply elem_of_nil in Hin.
  - destruct (remote false (url ++ name)) as [e|status content] eqn:E; cbn.
    + intros Hin. by apply elem_of_nil in Hin.
    + intros [Heq|Hin]%elem_of_cons.
      * injection Heq as -> ->. split; [left | by exists status].
      * destruct (IH Hin) as [? ?]. split; [by right | done].
Qed.

(** Every file a call writes holds the body of the response to a request of
    that call, for the file's name under one directory URL. *)
Lemma plan_writes (data_dir : bool) (day : day_arg) (station : string)
    (download_minute : bool) :
  ∃ url, ∀ n c,
    (n, c) ∈ writes_of (plan data_dir day station download_minute) →
    url ++ n ∈ requests_of (plan data_dir day station download_minute)
    ∧ ∃ status, remote false (url ++ n) = Response status c.
Proof.
  unfold download_rego_plan.plan.
  destruct (match day with DayStr s => dateutil_parse s | DayDatetime d => Ok d end)
    as [d|e]; [| exists ""; intros n c Hin; by apply elem_of_nil in Hin].
  destruct (listing (day_url d) (lower station)) as [[|station_dir dirs]|e];
    try (exists ""; intros n c Hin; by apply elem_of_nil in Hin).
  exists (hour_url d station_dir). intros n c.
  destruct data_dir; cbn [negb];
    [| intros Hin; by apply elem_of_nil in Hin].
  destruct download_minute.
  - destruct (listing (hour_url d station_dir) (strftime_Ymd_HM d))
      as [[|file_name names]|e];
      try (intros Hin; by apply elem_of_nil in Hin).
    destruct (remote false (hour_url d station_dir ++ file_name))
      as [e|status content] eqn:E; cbn;
      [intros Hin; by apply elem_of_nil in Hin |].
    intros Hin%list_elem_of_singleton. injection Hin as -> ->.
    split; [do 2 right; left | by exists status].
  - destruct (listing (hour_url d station_dir) "") as [names|e]; cbn;
      [| intros Hin; by apply elem_of_nil in Hin].
    intros Hin. destruct (fetch_plan_writes _ _ _ _ Hin) as [? ?].
    split; [by do 2 right | done].
Qed.

Lemma plan_requests (data_dir : bool) (d : datetime) (station : string)
    (download_minute : bool) :
  requests_of (plan data_dir (DayDatetime d) station download_minute) ≠ [].
Proof.
  unfold download_rego_plan.plan.
  destruct (listing (day_url d) (lower station)) as [[|station_dir dirs]|e];
    try done.
  destruct data_dir; cbn [negb]; [| done].
  destruct download_minute.
  - destruct (listing (hour_url d station_dir) (strftime_Ymd_HM d))
      as [[|file_name names]|e]; try done.
    by destruct (remote false (hour_url d station_dir ++ file_name)).
  - by destruct (listing (hour_url d station_dir) "").
Qed.

(** A minute download that raises writes no file. *)
Lemma plan_minute_raise (data_dir : bool) (day : day_arg) (station : string)
    (e : exn) :
  result_of (plan data_dir day station true) = Raise e →
  writes_of (plan data_dir day station true) = [].
Proof.
  unfold download_rego_plan.plan.
  destruct (match day with DayStr s => dateutil_parse s | DayDatetime d => Ok d end)
    as [d|e']; [| done].
  destruct (listing (day_url d) (lower station)) as [[|station_dir dirs]|e'];
    try done.
  destruct data_dir; cbn [negb]; [| done].
  destruct (listing (hour_url d station_dir) (strftime_Ymd_HM d))
    as [[|file_name names]|e']; try done.
  by destruct (remote false (hour_url d station_dir ++ file_name)).
Qed.

(** C1, as the code has it. [download] takes no [force_download] and does
    not look for the file: a second call for the same bucket makes the
    requests of the first once more, also when the file exists locally.
    While the archive stays the same the second call ends as the first did
    and leaves the directory and every local file as they were after the
    first. *)
Theorem download_twice_same_files (day : day_arg) (station : string)
    (download_minute : bool) (w : world) :
  ∃ new,
    requests (download day station download_minute w).2 = (requests w ++ new)%list
    ∧ requests (download day station download_minute
                  (download day station download_minute w).2).2
      = (requests (download day station download_minute w).2 ++ new)%list
    ∧ (∀ d, day = DayDatetime d → new ≠ [])
    ∧ (download day station download_minute
         (download day station download_minute w).2).1
      = (download day station download_minute w).1
    ∧ rego_files (download day station download_minute
                    (download day station download_minute w).2).2
      = rego_files (download day station download_minute w).2
    ∧ rego_dir_exists (download day station download_minute
                         (download day station download_minute w).2).2
      = rego_dir_exists (download day station download_minute w).2.
Proof.
  rewrite !download_eq. cbn [fst snd]. cbn [after data_dir_exists].
  set (o := plan (data_dir_exists w) day station download_minute).
  exists (requests_of o). cbn [requests rego_files rego_dir_exists].
  repeat split.
  - intros d ->. apply plan_requests.
  - apply apply_writes_id. intros n c Hin. apply apply_writes_lookup; [| done].
    intros n' c1 c2 H1 H2.
    destruct (plan_writes (data_dir_exists w) day station download_minute)
      as [url Hurl].
    destruct (Hurl _ _ H1) as [_ [s1 E1]]. destruct (Hurl _ _ H2) as [_ [s2 E2]].
    congruence.
  - unfold after. cbn. by destruct (rego_dir_exists w), (rego_made o).
Qed.

(** C4, as the code has it. A file is written only with the whole body of
    the response to a request of the same call for that file, whatever the
    status code of the response; a minute download that raises, be it in the
    resolver or in the fetch, leaves every local file as it was. *)
Theorem download_writes_response_bodies (day : day_arg) (station : string)
    (download_minute : bool) (w : world) :
  (∃ new,
     requests (download day station download_minute w).2 = (requests w ++ new)%list
     ∧ ∀ name,
         rego_files (download day station download_minute w).2 !! name
         = rego_files w !! name
         ∨ ∃ url status content,
             url ++ name ∈ new
             ∧ remote false (url ++ name) = Response status content
             ∧ rego_files (download day station download_minute w).2 !! name
               = Some content)
  ∧ (download_minute = true →
     ∀ e, (download day station download_minute w).1 = Raise e →
          rego_files (download day station download_minute w).2 = rego_files w).
Proof.
  rewrite !download_eq. cbn [fst snd after requests rego_files]. split.
  - exists (requests_of (plan (data_dir_exists w) day station download_minute)).
    split; [done |]. intros name.
    destruct (apply_writes_other
                (writes_of (plan (data_dir_exists w) day station download_minute))
                (rego_files w) name) as [Hsame|(c & Hin & Hc)]; [by left | right].
    destruct (plan_writes (data_dir_exists w) day station download_minute)
      as [url Hurl].
    destruct (Hurl _ _ Hin) as [Hreq [status Hget]].
    by exists url, status, c.
  - intros -> e He. by rewrite (plan_minute_raise _ _ _ _ He).
Qed.



(** ** More on the resolver and the downloader *)

(** X2. [search_hrefs] makes one request, for the URL it is given, and
    changes nothing else: no file, no directory; when the request raises,
    it raises the same exception. *)
Theorem search_hrefs_one_request (url pattern : string) (w : world) :
  (search_hrefs url pattern w).2
  = World (data_dir_exists w) (rego_dir_exists w) (rego_files w)
      (requests w ++ [url])
  ∧ ∀ e, remote true url = Fails e → (search_hrefs url pattern w).1 = Raise e.
Proof.
  rewrite search_hrefs_eq. split; [done |]. intros e He. cbn.
  unfold download_rego_plan.listing. by rewrite He.
Qed.

Lemma retained_pattern_case (p q name : string) :
  lower p = lower q → retained p name ↔ retained q name.
Proof. unfold retained. by intros ->. Qed.

(** X3. The pattern counts letter case aside: two patterns that agree up to
    case make [search_hrefs] return the same entries. *)
Theorem search_hrefs_pattern_case (p q url : string) (w : world) :
  lower p = lower q →
  ∀ names, (search_hrefs url p w).1 = Ok names
           ↔ (search_hrefs url q w).1 = Ok names.
Proof.
  intros Hpq names. rewrite !search_hrefs_eq. cbn [fst].
  unfold download_rego_plan.listing.
  destruct (remote true url) as [e|status content]; [done |].
  rewrite (list_filter_iff (retained p) (retained q))
    by (intros name; by apply retained_pattern_case).
  destruct (filter (retained q) (anchor_texts content)); [| done].
  split; discriminate.
Qed.

(** X4. The station code counts letter case aside: [download] does the same
    for two codes that agree up to case. *)
Theorem download_station_case (day : day_arg) (station station' : string)
    (download_minute : bool) (w : world) :
  lower station = lower station' →
  download day station download_minute w
  = download day station' download_minute w.
Proof. intros Hcase. unfold download_rego.download. by rewrite Hcase. Qed.

(** X5. A day given as text is parsed first: when the text parses,
    [download] does what it does for the parsed time; when the parser
    raises, [download] raises the same, with no request made and nothing
    changed. *)
Theorem download_day_text (s station : string) (download_minute : bool)
    (w : world) :
  (∀ d, dateutil_parse s = Ok d →
        download (DayStr s) station download_minute w
        = download (DayDatetime d) station download_minute w)
  ∧ (∀ e, dateutil_parse s = Raise e →
          download (DayStr s) station download_minute w = (Raise e, w)).
Proof.
  unfold download_rego.download, bind, lift, ret.
  split; [intros d Hd | intros e He]; by rewrite ?Hd, ?He.
Qed.






Lemma apply_writes_keeps (writes : list (string * string))
    (files : gmap string string) (name : string) :
  is_Some (files !! name) → is_Some (apply_writes writes files !! name).
Proof.
  intros Hsome.
  destruct (apply_writes_other writes files name) as [->|(c & _ & ->)]; eauto.
Qed.

(** X8. [download] never removes anything: a local file that was there is
    still there, the [rego] directory stays once it exists, the data
    directory is as before, and the requests made earlier stay on
    record. *)
Theorem download_never_removes (day : day_arg) (station : string)
    (download_minute : bool) (w : world) :
  data_dir_exists (download day station download_minute w).2
  = data_dir_exists w
  ∧ (rego_dir_exists w = true →
     rego_dir_exists (download day station download_minute w).2 = true)
  ∧ (∀ name, is_Some (rego_files w !! name) →
       is_Some (rego_files (download day station download_minute w).2 !! name))
  ∧ ∃ new, requests (download day station download_minute w).2
           = (requests w ++ new)%list.
Proof.
  rewrite download_eq. cbn [snd after data_dir_exists rego_dir_exists
    rego_files requests].
  split; [done | split; [by intros -> | split]].
  - intros name. apply apply_writes_keeps.
  - by eexists.
Qed.

Lemma under_base_day (d : datetime) : startswith BASE_URL (day_url d) = true.
Proof. apply startswith_spec. by eexists. Qed.

Lemma under_base_hour (d : datetime) (station_dir rest : string) :
  startswith BASE_URL (hour_url d station_dir ++ rest) = true.
Proof.
  apply startswith_spec. unfold hour_url, day_url.
  rewrite !append_assoc. by eexists.
Qed.

Lemma fetch_plan_requests (url : string) (names : list string) (u : string) :
  u ∈ requests_of (fetch_plan url names) → ∃ name, u = url ++ name.
Proof.
  induction names as [|name names IH]; cbn [download_rego_plan.fetch_plan].
  - intros Hin. by apply elem_of_nil in Hin.
  - destruct (remote false (url ++ name)) as [e|status content]; cbn.
    + intros ->%list_elem_of_singleton. by exists name.
    + intros [->|Hin]%elem_of_cons; [by exists name | by apply IH].
Qed.

(** X9. Every URL that [download] requests lies under [BASE_URL], the REGO
    directory of the archive. *)
Theorem download_requests_under_base (day : day_arg) (station : string)
    (download_minute : bool) (w : world) :
  ∃ new,
    requests (download day station download_minute w).2 = (requests w ++ new)%list
    ∧ ∀ u, u ∈ new → startswith BASE_URL u = true.
Proof.
  rewrite download_eq. cbn [snd after requests]. eexists. split; [done |].
  unfold download_rego_plan.plan.
  destruct (match day with DayStr s => dateutil_parse s | DayDatetime d => Ok d end)
    as [d|e]; [| intros u Hin; by apply elem_of_nil in Hin].
  pose proof (under_base_day d) as Hday.
  pose proof (λ rest, under_base_hour d rest "") as Hhour.
  setoid_rewrite append_nil_r in Hhour.
  assert (∀ (u : string) (P : Prop), u ∈ @nil string → P) as Hnil
    by (intros u P Hin; by apply elem_of_nil in Hin).
  destruct (listing (day_url d) (lower station)) as [[|station_dir dirs]|e];
    cbn [requests_of];
    try (intros u Hin; apply elem_of_cons in Hin as [->|Hin]; [done |];
         by apply (Hnil u)).
  destruct data_dir_exists; cbn [negb requests_of];
    [| intros u Hin; apply elem_of_cons in Hin as [->|Hin]; [done |];
       by apply (Hnil u)].
  destruct download_minute.
  - destruct (listing (hour_url d station_dir) (strftime_Ymd_HM d))
      as [[|file_name names]|e]; cbn [requests_of];
      try (intros u Hin; apply elem_of_cons in Hin as [->|Hin]; [done |];
           apply elem_of_cons in Hin as [->|Hin]; [done |];
           by apply (Hnil u)).
    destruct (remote false (hour_url d station_dir ++ file_name));
      cbn [requests_of];
      intros u Hin; apply elem_of_cons in Hin as [->|Hin]; try done;
      apply elem_of_cons in Hin as [->|Hin]; try done;
      apply elem_of_cons in Hin as [->|Hin];
      [apply under_base_hour | by apply (Hnil u)
      | apply under_base_hour | by apply (Hnil u)].
  - destruct (listing (hour_url d station_dir) "") as [names|e];
      cbn [requests_of];
      intros u Hin; apply elem_of_cons in Hin as [->|Hin]; try done;
      apply elem_of_cons in Hin as [->|Hin]; try done;
      [| by apply (Hnil u)].
    apply fetch_plan_requests in Hin as [name ->]. apply under_base_hour.
Qed.

(** X10. Without the data directory [download] cannot work: it never
    returns, writes no file, makes no directory, and requests at most the
    listing of the day. *)
Theorem download_needs_data_dir (day : day_arg) (station : string)
    (download_minute : bool) (w : world) :
  data_dir_exists w = false →
  (download day station download_minute w).1 ≠ Ok tt
  ∧ rego_files (download day station download_minute w).2 = rego_files w
  ∧ rego_dir_exists (download day station download_minute w).2
    = rego_dir_exists w
  ∧ ∃ new, requests (download day station download_minute w).2
           = (requests w ++ new)%list
           ∧ (List.length new ≤ 1)%nat.
Proof.
  intros Hdir. rewrite download_eq, Hdir. unfold download_rego_plan.plan.
  cbn [negb].
  destruct (match day with DayStr s => dateutil_parse s | DayDatetime d => Ok d end)
    as [d|e];
    [| cbn; rewrite orb_false_r; repeat split; try done;
       exists []; split; [done | cbn; lia] ].
  destruct (listing (day_url d) (lower station)) as [[|station_dir dirs]|e];
    cbn; rewrite orb_false_r; repeat split; try done; eexists; split;
    try done; cbn; lia.
Qed.

(** X11. When the listing of the day has no entry for the station,
    [download] raises [NotADirectoryError] for the lower-cased code after
    that one request; it makes no directory and writes no file. *)
Theorem download_station_not_listed (d : datetime) (station : string)
    (download_minute : bool) (status : Z) (content : string) (w : world) :
  remote true (day_url d) = Response status content →
  (∀ name, name ∈ anchor_texts content → ¬ retained (lower station) name) →
  download (DayDatetime d) station download_minute w
  = (Raise (NotADirectoryError (not_found_message (day_url d) (lower station))),
     World (data_dir_exists w) (rego_dir_exists w) (rego_files w)
       (requests w ++ [day_url d])).
Proof.
  intros Hday Hnone. rewrite download_eq.
  unfold download_rego_plan.plan, download_rego_plan.listing.
  rewrite Hday, (filter_none _ _ Hnone). unfold after. cbn.
  by rewrite orb_false_r.
Qed.

(** X12. A minute download makes the [rego] directory before it looks for
    the file: when the hour listing has no entry for the minute,
    [download] raises [NotADirectoryError] for the minute pattern after
    the two listing requests, with the directory made and no file
    written. *)
Theorem download_minute_not_listed (d : datetime)
    (station station_dir : string) (dirs : list string) (status1 status2 : Z)
    (listing1 listing2 : string) (w : world) :
  data_dir_exists w = true →
  remote true (day_url d) = Response status1 listing1 →
  filter (retained (lower station)) (anchor_texts listing1)
  = station_dir :: dirs →
  remote true (hour_url d station_dir) = Response status2 listing2 →
  (∀ name, name ∈ anchor_texts listing2 →
           ¬ retained (strftime_Ymd_HM d) name) →
  download (DayDatetime d) station true w
  = (Raise (NotADirectoryError
              (not_found_message (hour_url d station_dir) (strftime_Ymd_HM d))),
     World true true (rego_files w)
       (requests w ++ [day_url d; hour_url d station_dir])).
Proof.
  intros Hdir Hday Hdirs Hhour Hnone. rewrite download_eq, Hdir.
  unfold download_rego_plan.plan, download_rego_plan.listing.
  rewrite Hday, Hdirs. cbn [negb]. rewrite Hhour, (filter_none _ _ Hnone).
  unfold after. cbn. by rewrite Hdir, orb_true_r.
Qed.

End Archive.

(** *** On the example archive *)

Lemma search_hrefs_retained_in_order_example :
  (download_rego.search_hrefs example.remote example.anchor_texts
     (day_url example.luck_day) "LUCK" example.fresh).1
  = Ok ["luck_rego-649/"].
Proof.
  destruct (search_hrefs_retained_in_order example.remote example.anchor_texts
              example.dateutil_parse (day_url example.luck_day) "LUCK" 200%Z
              "day" example.fresh)
    as [Hreturns _]; [reflexivity | vm_compute; discriminate | exact Hreturns].
Defined.

Lemma search_hrefs_no_match_example :
  (download_rego.search_hrefs example.remote example.anchor_texts
     (day_url example.luck_day) "atha" example.fresh).1
  = Raise (NotADirectoryError
             (not_found_message (day_url example.luck_day) "atha")).
Proof.
  destruct (search_hrefs_no_match_raises example.remote example.anchor_texts
              (day_url example.luck_day) "atha" example.fresh) as [_ Hraises].
  destruct (Hraises 200%Z "day") as [Hmsg _]; [reflexivity | | exact Hmsg].
  intros name Hin Hret%retainedb_spec.
  change (example.anchor_texts "day")
    with ["../"; "gill_rego-652/"; "luck_rego-649/"] in Hin.
  repeat (apply elem_of_cons in Hin as [->|Hin];
          [vm_compute in Hret; discriminate |]).
  by apply elem_of_nil in Hin.
Defined.


(** The examples of the further properties of the downloader. *)
Lemma search_hrefs_pattern_case_example :
  (download_rego.search_hrefs example.remote example.anchor_texts
     (day_url example.luck_day) "LUCK" example.fresh).1
  = Ok ["luck_rego-649/"].
Proof.
  apply (search_hrefs_pattern_case example.remote example.anchor_texts
           "LUCK" "luck" (day_url example.luck_day) example.fresh);
    reflexivity.
Defined.

Lemma download_station_case_example :
  download_rego.download example.remote example.anchor_texts
    example.dateutil_parse (DayDatetime example.luck_day) "Luck" true
    example.fresh
  = download_rego.download example.remote example.anchor_texts
      example.dateutil_parse (DayDatetime example.luck_day) "LUCK" true
      example.fresh.
Proof.
  apply (download_station_case example.remote example.anchor_texts
           example.dateutil_parse); reflexivity.
Defined.



Lemma download_needs_data_dir_example :
  rego_files
    (download_rego.download example.remote example.anchor_texts
       example.dateutil_parse (DayDatetime example.luck_day) "LUCK" true
       example.no_data_dir).2 = ∅
  ∧ rego_dir_exists
      (download_rego.download example.remote example.anchor_texts
         example.dateutil_parse (DayDatetime example.luck_day) "LUCK" true
         example.no_data_dir).2 = false.
Proof.
  destruct (download_needs_data_dir example.remote example.anchor_texts
              example.dateutil_parse (DayDatetime example.luck_day) "LUCK"
              true example.no_data_dir) as (_ & Hfiles & Hdir & _);
    [reflexivity |].
  split; [exact Hfiles | exact Hdir].
Defined.

Lemma download_station_not_listed_example :
  download_rego.download example.remote example.anchor_texts
    example.dateutil_parse (DayDatetime example.luck_day) "ATHA" true
    example.fresh
  = (Raise (NotADirectoryError
              (not_found_message (day_url example.luck_day) "atha")),
     World true false ∅ [day_url example.luck_day]).
Proof.
  apply (download_station_not_listed example.remote example.anchor_texts
           example.dateutil_parse example.luck_day "ATHA" true 200%Z "day"
           example.fresh); [reflexivity |].
  intros name Hin Hret%retainedb_spec.
  change (example.anchor_texts "day")
    with ["../"; "gill_rego-652/"; "luck_rego-649/"] in Hin.
  repeat (apply elem_of_cons in Hin as [->|Hin];
          [vm_compute in Hret; discriminate |]).
  by apply elem_of_nil in Hin.
Defined.

Lemma download_minute_not_listed_example :
  download_rego.download example.remote example.anchor_texts
    example.dateutil_parse (DayDatetime (Datetime 2017 4 13 5 11 0 0)) "LUCK"
    true example.fresh
  = (Raise (NotADirectoryError
              (not_found_message example.luck_hour_url "20170413_0511")),
     World true true ∅ [day_url example.luck_day; example.luck_hour_url]).
Proof.
  apply (download_minute_not_listed example.remote example.anchor_texts
           example.dateutil_parse (Datetime 2017 4 13 5 11 0 0) "LUCK"
           "luck_rego-649/" [] 200%Z 200%Z "day" "hour" example.fresh);
    try reflexivity.
  intros name Hin Hret%retainedb_spec.
  change (example.anchor_texts "hour")
    with ["../"; example.image_0509; example.image_0510] in Hin.
  repeat (apply elem_of_cons in Hin as [->|Hin];
          [vm_compute in Hret; discriminate |]).
  by apply elem_of_nil in Hin.
Defined.

(** C1, as the specification states it, fails: the file of the minute is
    there after the first call, and the second call requests the two
    listings and the file again. *)
Lemma second_download_requests_again :
  rego_files
    (download_rego.download example.remote example.anchor_texts
       example.dateutil_parse (DayDatetime example.luck_day) "LUCK" true
       example.fresh).2 !! example.image_0510 = Some "image"
  ∧ requests
      (download_rego.download example.remote example.anchor_texts
         example.dateutil_parse (DayDatetime example.luck_day) "LUCK" true
         (download_rego.download example.remote example.anchor_texts
            example.dateutil_parse (DayDatetime example.luck_day) "LUCK" true
            example.fresh).2).2
    = [day_url example.luck_day; example.luck_hour_url;
       example.luck_hour_url ++ example.image_0510;
       day_url example.luck_day; example.luck_hour_url;
       example.luck_hour_url ++ example.image_0510].
Proof. split; vm_compute; reflexivity. Qed.

(** C4, as the specification states it, fails: the archive answers the
    request for the file of 05:09 with status 404, and the call returns
    with the body of that answer written as the file. *)
Lemma download_writes_error_page :
  example.remote false (example.luck_hour_url ++ example.image_0509)
  = Response 404 "Not Found"
  ∧ rego_files example.fresh !! example.image_0509 = None
  ∧ (download_rego.download example.remote example.anchor_texts
       example.dateutil_parse (DayDatetime (Datetime 2017 4 13 5 9 0 0))
       "LUCK" true example.fresh).1 = Ok tt
  ∧ rego_files
      (download_rego.download example.remote example.anchor_texts
         example.dateutil_parse (DayDatetime (Datetime 2017 4 13 5 9 0 0))
         "LUCK" true example.fresh).2 !! example.image_0509
    = Some "Not Found".
Proof. repeat split; vm_compute; reflexivity. Qed.

End download_rego_facts.

(** ** The Imager *)

Module imager_facts.
Import Py spec PyFacts imager.

Lemma steps_ret {S A} (R : relation S) `{!Reflexive R} (a : A) :
  steps R (ret a).
Proof. intros st. reflexivity. Qed.

Lemma steps_raise {S A} (R : relation S) `{!Reflexive R} (e : exn) :
  steps R (@raise S A e).
Proof. intros st. reflexivity. Qed.

Lemma steps_lift {S A} (R : relation S) `{!Reflexive R} (r : result A) :
  steps R (lift r).
Proof. intros st. reflexivity. Qed.

Lemma steps_bind {S A B} (R : relation S) `{!Transitive R} (m : M S A)
    (k : A → M S B) :
  steps R m → (∀ a, steps R (k a)) → steps R (bind m k).
Proof.
  intros Hm Hk st. unfold bind. specialize (Hm st).
  destruct (m st) as [[a|e] st']; [| done].
  etrans; [exact Hm | apply Hk].
Qed.

Lemma steps_for_each {S A} (R : relation S) `{!PreOrder R} (xs : list A)
    (body : A → M S unit) :
  (∀ x, steps R (body x)) → steps R (for_each xs body).
Proof.
  intros Hbody. induction xs as [|x xs IH]; cbn [for_each].
  - apply steps_ret, _.
  - apply steps_bind; [apply _ | apply Hbody | intros _; apply IH].
Qed.

Lemma steps_dict_get {S V} (R : relation S) `{!Reflexive R} (key : string)
    (d : list (string * V)) :
  steps R (dict_get key d).
Proof.
  induction d as [|[k v] d IH]; cbn [dict_get].
  - by apply steps_raise.
  - destruct (String.eqb k key); [by apply steps_ret | done].
Qed.

(** The keys of a [dict] after [d[key] = value]. *)
Lemma dict_set_keys {V} (key : string) (value : V) (d : list (string * V))
    (k : string) :
  k ∈ (dict_set key value d).*1 ↔ k = key ∨ k ∈ d.*1.
Proof.
  induction d as [|[k' v'] d IH]; cbn [dict_set].
  - cbn. rewrite list_elem_of_singleton, elem_of_nil. tauto.
  - destruct (String.eqb_spec k' key) as [->|Hne]; cbn.
    + rewrite !elem_of_cons. tauto.
    + rewrite !elem_of_cons, IH. tauto.
Qed.

Lemma elem_of_insert_sorted (t : Z) (ts : list Z) (x : Z) :
  x ∈ insert_sorted t ts ↔ x = t ∨ x ∈ ts.
Proof.
  induction ts as [|u ts IH]; cbn [insert_sorted].
  - rewrite list_elem_of_singleton, elem_of_nil. tauto.
  - destruct (Z.ltb_spec t u); [by rewrite !elem_of_cons |].
    destruct (Z.eqb_spec t u) as [->|Hne].
    + rewrite !elem_of_cons. tauto.
    + rewrite !elem_of_cons, IH. tauto.
Qed.

Lemma elem_of_sorted_set (ts : list Z) (x : Z) : x ∈ sorted_set ts ↔ x ∈ ts.
Proof.
  unfold sorted_set. induction ts as [|t ts IH]; cbn [foldr]; [done |].
  by rewrite elem_of_insert_sorted, elem_of_cons, IH.
Qed.

(** The columns of the table are the whole hours from the first to the
    last. *)
Lemma elem_of_hours_between (start end_ h : datetime) :
  h ∈ hours_between start end_
  ↔ ∃ k : nat, h = (start + Z.of_nat k * us_per_hour)%Z ∧ (h <= end_)%Z.
Proof.
  unfold hours_between, us_per_hour.
  destruct (Z.leb_spec start end_) as [Hle|Hgt].
  - rewrite list_elem_of_fmap. split.
    + intros (k & -> & Hk%elem_of_seq). exists k. split; [done |].
      assert (Z.of_nat k <= (end_ - start) / 3600000000)%Z as Hq by lia.
      pose proof (Z.mul_div_le (end_ - start) 3600000000 ltac:(lia)). nia.
    + intros (k & -> & Hk). exists k. split; [done |].
      apply elem_of_seq. split; [lia |].
      assert (Z.of_nat k <= (end_ - start) / 3600000000)%Z
        by (apply Z.div_le_lower_bound; lia).
      lia.
  - rewrite elem_of_nil. split; [done | intros (k & -> & Hk); lia].
Qed.

Lemma zip_with_fmap_r {A B C} (f : A → B → C) (g : A → B) (l : list A) :
  zip_with f l (map g l) = map (λ x, f x (g x)) l.
Proof. induction l as [|x l IH]; cbn; [done | by rewrite IH]. Qed.

(** [d[key]] for a key of [d]. *)
Lemma dict_get_key {S V} (key : string) (d : list (string * V)) (st : S) :
  key ∈ d.*1 → ∃ v, dict_get key d st = (Ok v, st) ∧ (key, v) ∈ d.
Proof.
  induction d as [|[k v] d IH]; cbn [dict_get fmap list_fmap].
  - intros Hin. by apply elem_of_nil in Hin.
  - intros Hin. destruct (String.eqb_spec k key) as [->|Hne].
    + exists v. split; [done | left].
    + apply elem_of_cons in Hin as [Heq|Hin]; [cbn in Heq; congruence |].
      destruct (IH Hin) as (v' & ? & ?). exists v'. split; [done | by right].
Qed.

Lemma dict_set_entries {V} (key : string) (value : V) (d : list (string * V))
    (k : string) (v : V) :
  (k, v) ∈ dict_set key value d → (k, v) = (key, value) ∨ (k, v) ∈ d.
Proof.
  induction d as [|[k' v'] d IH]; cbn [dict_set].
  - intros ?%list_elem_of_singleton. by left.
  - destruct (String.eqb_spec k' key) as [->|Hne].
    + intros [?|?]%elem_of_cons; [by left | right; by right].
    + intros [->|Hin]%elem_of_cons; [right; left |].
      destruct (IH Hin); [by left | right; by right].
Qed.

Section Loaders.

Variables Frames Cal RawTimeRange : Type.
Variable _validate_time_range : RawTimeRange → result (list datetime).
Variable get_frames :
  option (list datetime) → string → string → result (list datetime * Frames).
Variable load_cal : string → string → result Cal.
Variable asi_stations_csv : list (string * string).

Abbreviation load_station :=
  (imager.load_station Frames Cal get_frames load_cal).
Abbreviation load_stations :=
  (imager.load_stations Frames Cal get_frames load_cal).
Abbreviation build_data_availability :=
  (imager.build_data_availability Frames Cal).
Abbreviation load := (imager.load Frames Cal RawTimeRange get_frames load_cal).
Abbreviation download := (imager.download Frames Cal RawTimeRange).
Abbreviation _check_time_range_exists :=
  (imager._check_time_range_exists Frames Cal RawTimeRange).
Abbreviation __init__ :=
  (imager.__init__ Frames Cal RawTimeRange _validate_time_range
     asi_stations_csv).
Abbreviation skipped := (spec.skipped Frames get_frames).
Abbreviation loaded := (spec.loaded Frames Cal get_frames load_cal).
Abbreviation fails_with := (spec.fails_with Frames Cal get_frames load_cal).
Abbreviation calls_for := (spec.calls_for Frames get_frames).
Abbreviation marked_table := (spec.marked_table Frames get_frames).
Abbreviation marked_cell := (spec.marked_cell Frames get_frames).

(** One turn of the station loop. *)
Lemma load_station_eq (station : string) (st : state Frames Cal)
    (tr : option (list datetime)) (d : list (string * station_data Frames Cal)) :
  time_range (self st) = Some tr → data (self st) = Some d →
  load_station station st
  = match get_frames tr (array (self st)) station with
    | Raise e =>
        (if station_no_data e then Ok tt else Raise e,
         State (self st) (calls st ++ calls_for tr (array (self st)) station))
    | Ok (t, f) =>
        match load_cal (array (self st)) station with
        | Raise e =>
            (Raise e,
             State (self st) (calls st ++ calls_for tr (array (self st)) station))
        | Ok c =>
            (Ok tt,
             State (set_data (dict_set station (StationData t f c) d) (self st))
               (calls st ++ calls_for tr (array (self st)) station))
        end
    end.
Proof.
  intros Htr Hd. destruct st as [im cs]. cbn [self calls] in *.
  unfold imager.load_station, self_time_range, self_data, get_self, log_call,
    set_self, bind, calls_for. cbn [self calls]. rewrite Htr. cbn.
  destruct (get_frames tr (array im) station) as [[t f]|e]; cbn.
  - destruct (load_cal (array im) station) as [c|e]; cbn;
      rewrite <- ?app_assoc; [by rewrite Hd | done].
  - destruct e; cbn; try done. unfold no_data_marker.
    by destruct (str_in "ASI data not found for station" msg).
Qed.

(** The loop stops at the first station that fails, with its error. *)
Lemma loop_aborts (before : list string) (station : string)
    (rest : list string) (e : exn) (st : state Frames Cal)
    (tr : option (list datetime)) (d : list (string * station_data Frames Cal)) :
  time_range (self st) = Some tr → data (self st) = Some d →
  Forall (λ x, skipped tr (array (self st)) x ∨ loaded tr (array (self st)) x)
    before →
  fails_with tr (array (self st)) station e →
  (for_each (before ++ station :: rest) load_station st).1 = Raise e
  ∧ calls (for_each (before ++ station :: rest) load_station st).2
    = (calls st ++ flat_map (calls_for tr (array (self st))) before
       ++ calls_for tr (array (self st)) station)%list.
Proof.
  revert st d. induction before as [|x before IH]; intros st d Htr Hd Hpass Hfail.
  - cbn [app for_each flat_map]. unfold bind at 1. unfold bind at 1.
    rewrite (load_station_eq _ _ _ _ Htr Hd).
    destruct Hfail as [[-> ->]|(t & f & -> & ->)]; by cbn.
  - apply Forall_cons in Hpass as [Hx Hpass].
    cbn [app for_each flat_map]. unfold bind at 1. unfold bind at 1.
    rewrite (load_station_eq _ _ _ _ Htr Hd).
    destruct Hx as [(e' & He' & Hno)|(t & f & c & Hf & Hc)].
    + rewrite He', Hno.
      destruct (IH (State (self st) (calls st ++ calls_for tr (array (self st)) x))
                  d Htr Hd Hpass Hfail) as [-> ->].
      cbn [self calls]. by rewrite <- !app_assoc.
    + rewrite Hf, Hc.
      destruct (IH (State (set_data (dict_set x (StationData t f c) d) (self st))
                      (calls st ++ calls_for tr (array (self st)) x))
                  (dict_set x (StationData t f c) d) Htr eq_refl Hpass Hfail)
        as [-> ->].
      cbn [self calls]. by rewrite <- !app_assoc.
Qed.

(** The loop goes through every station when each is skipped or loaded, and
    stores the loaded ones with the times the Frame Loader gave. *)
Lemma loop_completes (stations : list string) (st : state Frames Cal)
    (tr : option (list datetime)) (d : list (string * station_data Frames Cal)) :
  time_range (self st) = Some tr → data (self st) = Some d →
  Forall (λ x, skipped tr (array (self st)) x ∨ loaded tr (array (self st)) x)
    stations →
  ∃ d',
    for_each stations load_station st
    = (Ok tt,
       State (set_data d' (self st))
         (calls st ++ flat_map (calls_for tr (array (self st))) stations))
    ∧ (∀ k, k ∈ d'.*1
            ↔ k ∈ d.*1 ∨ (k ∈ stations ∧ loaded tr (array (self st)) k))
    ∧ (∀ k v, (k, v) ∈ d' →
              (k, v) ∈ d
              ∨ ∃ f, get_frames tr (array (self st)) k = Ok (times v, f)).
Proof.
  revert st d. induction stations as [|x stations IH]; intros st d Htr Hd Hpass.
  - exists d. split; [| split].
    + destruct st as [[] ?]. cbn in *. subst. by rewrite app_nil_r.
    + intros k. rewrite elem_of_nil. tauto.
    + intros k v ?. by left.
  - apply Forall_cons in Hpass as [Hx Hpass].
    cbn [for_each flat_map]. unfold bind at 1.
    rewrite (load_station_eq _ _ _ _ Htr Hd).
    destruct Hx as [(e' & He' & Hno)|(t & f & c & Hf & Hc)].
    + rewrite He', Hno.
      destruct (IH (State (self st) (calls st ++ calls_for tr (array (self st)) x))
                  d Htr Hd Hpass) as (d' & Heq & Hkeys & Hentries).
      cbn [self calls] in Heq, Hkeys, Hentries. rewrite Heq.
      exists d'. split; [by rewrite <- !app_assoc | split; [| done]].
      intros k. rewrite Hkeys, elem_of_cons. split; [tauto |].
      intros [?|[[->|?] Hl]]; try tauto.
      destruct Hl as (? & ? & ? & ? & ?). congruence.
    + rewrite Hf, Hc.
      destruct (IH (State (set_data (dict_set x (StationData t f c) d) (self st))
                      (calls st ++ calls_for tr (array (self st)) x))
                  (dict_set x (StationData t f c) d) Htr eq_refl Hpass)
        as (d' & Heq & Hkeys & Hentries).
      cbn [self calls array set_data] in Heq, Hkeys, Hentries. rewrite Heq.
      exists d'. split; [| split].
      * destruct st as [[] ?]. cbn. by rewrite <- !app_assoc.
      * intros k. rewrite Hkeys, dict_set_keys, elem_of_cons. split; [| tauto].
        intros [[->|?]|[? ?]]; [| tauto | tauto].
        right. split; [by left |]. by exists t, f, c.
      * intros k v Hin. destruct (Hentries k v Hin) as [Hset|?]; [| by right].
        apply dict_set_entries in Hset as [[= -> ->]|?]; [right | by left].
        by exists f.
Qed.

Lemma check_passes (arg : option RawTimeRange) (st : state Frames Cal) :
  is_Some (time_range (self st)) → _check_time_range_exists arg st = (Ok tt, st).
Proof.
  intros [v Hv]. unfold imager._check_time_range_exists, bind, get_self,
    hasattr_time_range. rewrite Hv. by destruct arg.
Qed.

Lemma load_stations_eq (st : state Frames Cal) :
  load_stations st
  = for_each (stations_to_load (self st)) load_station
      (State (set_stations (normalized (stations (self st)))
                (set_data [] (self st)))
         (calls st)).
Proof.
  destruct st as [[a s t aa d dd da] cs].
  unfold imager.load_stations, stations_to_load, bind, set_self, get_self.
  cbn. by destruct s.
Qed.

Lemma load_eq (arg : option RawTimeRange) (st : state Frames Cal) :
  is_Some (time_range (self st)) →
  load arg st
  = match load_stations st with
    | (Ok _, st') => build_data_availability st'
    | (Raise e, st') => (Raise e, st')
    end.
Proof.
  intros Hattr. unfold imager.load. unfold bind at 1.
  by rewrite check_passes.
Qed.

(** C3. With a time range in place, [load] goes through the stations in
    order; a station for which the Frame Loader raises Station-No-Data (a
    [FileNotFoundError] whose message contains the marker text) is skipped
    and the next one is tried, so that when every station is skipped or
    loaded the loop calls the loaders for all of them and keeps exactly the
    loaded ones; any other error raised while loading a station ends the
    whole call with that error, and no later station is tried. *)
Theorem load_skips_only_station_no_data (arg : option RawTimeRange)
    (st : state Frames Cal) (tr : option (list datetime)) :
  time_range (self st) = Some tr →
  (∀ before station rest e,
     stations_to_load (self st) = (before ++ station :: rest)%list →
     Forall (λ x, skipped tr (array (self st)) x ∨ loaded tr (array (self st)) x)
       before →
     fails_with tr (array (self st)) station e →
     (load arg st).1 = Raise e
     ∧ calls (load arg st).2
       = (calls st ++ flat_map (calls_for tr (array (self st))) before
          ++ calls_for tr (array (self st)) station)%list)
  ∧ (Forall (λ x, skipped tr (array (self st)) x ∨ loaded tr (array (self st)) x)
       (stations_to_load (self st)) →
     (load_stations st).1 = Ok tt
     ∧ calls (load_stations st).2
       = (calls st
          ++ flat_map (calls_for tr (array (self st)))
               (stations_to_load (self st)))%list
     ∧ ∃ d, data (self (load_stations st).2) = Some d
            ∧ ∀ k, k ∈ d.*1
                   ↔ k ∈ stations_to_load (self st)
                     ∧ loaded tr (array (self st)) k).
Proof.
  intros Htr. split.
  - intros before station rest e Hsplit Hpass Hfail.
    rewrite load_eq by (by rewrite Htr).
    rewrite load_stations_eq, Hsplit.
    destruct (loop_aborts before station rest e
                (State (set_stations (normalized (stations (self st)))
                          (set_data [] (self st))) (calls st))
                tr [] Htr eq_refl Hpass Hfail) as [Hres Hcalls].
    destruct (for_each (before ++ station :: rest) load_station _) as [r st'].
    cbn [fst snd self calls array set_stations set_data] in *. by subst r.
  - intros Hpass. rewrite load_stations_eq.
    destruct (loop_completes (stations_to_load (self st))
                (State (set_stations (normalized (stations (self st)))
                          (set_data [] (self st))) (calls st))
                tr [] Htr eq_refl Hpass) as (d & -> & Hkeys & _).
    cbn [fst snd self calls]. split; [done | split; [done |]].
    exists d. split; [done |]. intros k. rewrite Hkeys.
    cbn. rewrite elem_of_nil. tauto.
Qed.

(** *** The availability table of named stations *)

Lemma add_columns_id (labels : list datetime) (df : DataFrame) :
  (∀ l, l ∈ labels → l ∈ columns df) → foldl add_column df labels = df.
Proof.
  induction labels as [|l labels IH]; intros Hin; cbn [foldl]; [done |].
  unfold add_column at 2. rewrite bool_decide_eq_true_2 by (apply Hin; left).
  apply IH. intros l' ?. apply Hin. by right.
Qed.

Lemma to_datetime_ok (ts : list datetime) :
  (∀ t, t ∈ ts → in_bounds t = true) → to_datetime ts = Ok ts.
Proof.
  intros Hall. unfold to_datetime.
  assert (forallb in_bounds ts = true) as ->; [| done].
  apply forallb_forall. intros t Hin%list_elem_of_In. by apply Hall.
Qed.

Lemma hours_between_in_bounds (start end_ h : datetime) :
  in_bounds start = true → in_bounds end_ = true →
  h ∈ hours_between start end_ → in_bounds h = true.
Proof.
  unfold in_bounds. intros [? ?]%andb_true_iff [? ?]%andb_true_iff
    (k & -> & Hle)%elem_of_hours_between.
  apply andb_true_iff. unfold us_per_hour in *. split; lia.
Qed.

Lemma mark_loaded_eq (k : string) (st : state Frames Cal)
    (d : list (string * station_data Frames Cal)) (tr : option (list datetime))
    (arr : string) (done l : list string) (dates : list datetime) :
  data (self st) = Some d →
  data_availability (self st) = Some (marked_table tr arr done l dates) →
  k ∈ d.*1 → k ∈ l →
  (∀ v, (k, v) ∈ d → ∃ f, get_frames tr arr k = Ok (times v, f)) →
  (∀ t f, get_frames tr arr k = Ok (t, f) →
          ∀ x, x ∈ t → replace_to_hour x ∈ dates) →
  (∀ h, h ∈ dates → in_bounds h = true) →
  mark_loaded Frames Cal k st
  = (Ok tt,
     State (set_data_availability (marked_table tr arr (k :: done) l dates)
              (self st))
       (calls st)).
Proof.
  intros Hd Hdf Hkey Hl Hentry Hrange Hbounds.
  unfold mark_loaded, self_data, self_data_availability, bind, get_self, set_self.
  rewrite Hd. cbn [ret].
  destruct (dict_get_key k d st Hkey) as (v & -> & Hv).
  destruct (Hentry v Hv) as [f Hf].
  assert (∀ h, h ∈ sorted_set (map replace_to_hour (times v)) → h ∈ dates)
    as Hhours.
  { intros h Hin. rewrite elem_of_sorted_set in Hin.
    apply list_elem_of_fmap in Hin as (x & -> & Hx). by eapply Hrange. }
  rewrite to_datetime_ok by (intros h ?; by apply Hbounds, Hhours).
  cbn [ret lift]. rewrite Hdf. cbn [ret]. f_equal. f_equal. f_equal.
  unfold loc_set. rewrite add_columns_id by done.
  cbn [marked_table columns rows].
  assert (bool_decide
            (k ∈ (map (λ s, (s, map (marked_cell tr arr done s) dates)) l).*1)
          = true) as ->.
  { apply bool_decide_eq_true. apply list_elem_of_fmap.
    exists (k, map (marked_cell tr arr done k) dates). split; [done |].
    apply list_elem_of_fmap. by exists k. }
  rewrite map_map.
  erewrite (map_ext _ (λ s, (s, map (marked_cell tr arr (k :: done) s) dates)));
    [done |].
  intros s. cbn [fst snd].
  destruct (String.eqb_spec s k) as [->|Hne].
  - f_equal. unfold set_cells. rewrite zip_with_fmap_r. apply map_ext. intros h.
    unfold marked_cell, spec.expected_cell. rewrite Hf.
    rewrite (bool_decide_eq_true_2 (k ∈ k :: done)) by left.
    destruct (decide (h ∈ map replace_to_hour (times v))) as [Hin|Hnot].
    + rewrite !bool_decide_eq_true_2; [done | done | by apply elem_of_sorted_set].
    + rewrite (bool_decide_eq_false_2 (h ∈ sorted_set _))
        by (by rewrite elem_of_sorted_set).
      rewrite (bool_decide_eq_false_2 (h ∈ map _ _)) by done.
      by destruct (bool_decide (k ∈ done)).
  - f_equal. apply map_ext. intros h. unfold marked_cell.
    destruct (decide (s ∈ done)) as [Hin|Hnot].
    + rewrite !bool_decide_eq_true_2; [done | by right | done].
    + rewrite !bool_decide_eq_false_2; [done | | done].
      intros [?|?]%elem_of_cons; done.
Qed.

Lemma mark_loop (keys : list string) (st : state Frames Cal)
    (d : list (string * station_data Frames Cal)) (tr : option (list datetime))
    (arr : string) (done l : list string) (dates : list datetime) :
  data (self st) = Some d →
  data_availability (self st) = Some (marked_table tr arr done l dates) →
  (∀ k, k ∈ keys → k ∈ d.*1 ∧ k ∈ l) →
  (∀ k v, (k, v) ∈ d → ∃ f, get_frames tr arr k = Ok (times v, f)) →
  (∀ k t f, k ∈ keys → get_frames tr arr k = Ok (t, f) →
            ∀ x, x ∈ t → replace_to_hour x ∈ dates) →
  (∀ h, h ∈ dates → in_bounds h = true) →
  for_each keys (mark_loaded Frames Cal) st
  = (Ok tt,
     State (set_data_availability
              (marked_table tr arr (rev keys ++ done) l dates) (self st))
       (calls st)).
Proof.
  revert st done. induction keys as [|k keys IH];
    intros st done Hd Hdf Hkeys Hentry Hrange Hbounds.
  - cbn. destruct st as [[] ?]. cbn in *. by subst.
  - cbn [for_each]. unfold bind.
    rewrite (mark_loaded_eq k st d tr arr done l dates Hd Hdf);
      [| by apply Hkeys; left | by apply Hkeys; left | by apply Hentry
       | intros t f; apply Hrange; left | done].
    rewrite (IH _ (k :: done)); cbn [self calls set_data_availability data
                                     data_availability]; try done.
    + cbn [rev]. rewrite <- app_assoc. by destruct st as [[] ?].
    + intros k' ?. apply Hkeys. by right.
    + intros k' t f ?. apply Hrange. by right.
Qed.

Lemma fresh_table (tr : option (list datetime)) (arr : string)
    (l : list string) (dates : list datetime) :
  replace_nan "-" (new_DataFrame (Some l) dates)
  = marked_table tr arr [] l dates.
Proof.
  unfold replace_nan, new_DataFrame, marked_table. cbn [columns rows default].
  f_equal. rewrite map_map. apply map_ext. intros s. cbn [fst snd]. f_equal.
  induction dates as [|h dates IH]; [done |]. cbn. by rewrite IH.
Qed.

Lemma complete_table (tr : option (list datetime)) (arr : string)
    (done l : list string) (dates : list datetime) :
  (∀ s, s ∈ l → s ∈ done ∨ ∃ e, get_frames tr arr s = Raise e) →
  marked_table tr arr done l dates
  = spec.expected_table Frames get_frames tr arr l dates.
Proof.
  intros Hall. unfold marked_table, spec.expected_table. f_equal.
  apply map_ext_in. intros s Hs%list_elem_of_In. f_equal.
  apply map_ext. intros h. unfold marked_cell.
  destruct (Hall s Hs) as [Hin|[e He]].
  - by rewrite bool_decide_eq_true_2.
  - unfold spec.expected_cell. rewrite He. by destruct (bool_decide _).
Qed.

Lemma build_data_availability_eq (st : state Frames Cal) (tr : list datetime)
    (start end_ : datetime) (dates : list datetime) (l : list string)
    (d : list (string * station_data Frames Cal)) :
  time_range (self st) = Some (Some tr) →
  head tr = Some start → last tr = Some end_ →
  date_range_H (replace_to_hour start) (replace_to_hour end_) = Ok dates →
  stations (self st) = StationsSeq l → data (self st) = Some d →
  build_data_availability st
  = for_each (map fst d) (mark_loaded Frames Cal)
      (State
         (set_data_availability
            (replace_nan "-" (new_DataFrame (Some l) dates))
            (set_data_availability_dates dates (self st)))
         (calls st)).
Proof.
  destruct st as [[a s t aa dd dt da] cs]. cbn [self calls time_range stations data].
  intros -> Hhead Hlast Hdates -> ->.
  unfold imager.build_data_availability, self_time_range, self_data,
    self_data_availability, subscript, bind, get_self, set_self. cbn.
  rewrite Hhead, Hlast. cbn. rewrite Hdates. by cbn.
Qed.

Lemma date_range_H_ok (start end_ : datetime) :
  in_bounds start = true → in_bounds end_ = true →
  date_range_H start end_ = Ok (hours_between start end_).
Proof. intros Hs He. unfold date_range_H. by rewrite Hs, He. Qed.

(** X1. With the stations named, a time range in place whose first and
    last hours are times pandas has (1677 to 2262), every station skipped
    or loaded and its frames within the hours of the range, [load] returns
    and leaves the station-by-hour table over all the hours of the range:
    [Loaded] where the station has a frame in the hour, the marker in every
    other cell. *)
Lemma load_named_stations_table (arg : option RawTimeRange)
    (st : state Frames Cal) (tr : list datetime) (start end_ : datetime) :
  stations (self st) ≠ StationsNone →
  time_range (self st) = Some (Some tr) →
  head tr = Some start → last tr = Some end_ →
  in_bounds (replace_to_hour start) = true →
  in_bounds (replace_to_hour end_) = true →
  Forall (λ x, skipped (Some tr) (array (self st)) x
               ∨ loaded (Some tr) (array (self st)) x)
    (stations_to_load (self st)) →
  (∀ s times frames,
     s ∈ stations_to_load (self st) →
     get_frames (Some tr) (array (self st)) s = Ok (times, frames) →
     ∀ t, t ∈ times →
          replace_to_hour t
          ∈ hours_between (replace_to_hour start) (replace_to_hour end_)) →
  (load arg st).1 = Ok tt
  ∧ data_availability_dates (self (load arg st).2)
    = Some (hours_between (replace_to_hour start) (replace_to_hour end_))
  ∧ data_availability (self (load arg st).2)
    = Some (spec.expected_table Frames get_frames (Some tr) (array (self st))
              (stations_to_load (self st))
              (hours_between (replace_to_hour start) (replace_to_hour end_))).
Proof.
  intros Hnamed Htr Hhead Hlast Hstart Hend Hpass Hrange.
  rewrite load_eq by (by rewrite Htr). rewrite load_stations_eq.
  destruct (loop_completes (stations_to_load (self st))
              (State (set_stations (normalized (stations (self st)))
                        (set_data [] (self st))) (calls st))
              (Some tr) [] Htr eq_refl Hpass) as (d & -> & Hkeys & Hentries).
  cbn [self calls array set_stations set_data] in Hkeys, Hentries.
  assert (normalized (stations (self st))
          = StationsSeq (stations_to_load (self st))) as Hnorm.
  { unfold stations_to_load. by destruct (stations (self st)). }
  rewrite Hnorm.
  rewrite (build_data_availability_eq
             (State (set_data d
                       (set_stations (StationsSeq (stations_to_load (self st)))
                          (set_data [] (self st)))) _)
             tr start end_ _ (stations_to_load (self st)) d Htr Hhead Hlast
             (date_range_H_ok _ _ Hstart Hend) eq_refl eq_refl).
  set (dates := hours_between (replace_to_hour start) (replace_to_hour end_)) in *.
  rewrite (fresh_table (Some tr) (array (self st))).
  erewrite (mark_loop (map fst d) _ d (Some tr) (array (self st)) []
              (stations_to_load (self st)) dates); try reflexivity.
  - cbn [fst snd self data_availability data_availability_dates
         set_data_availability set_data_availability_dates].
    split; [done | split; [done |]]. f_equal. apply complete_table. intros s Hs.
    rewrite app_nil_r, list_elem_of_In, <- in_rev, <- list_elem_of_In.
    destruct (proj1 (Forall_forall _ _) Hpass s Hs)
      as [(e & He & _)|Hloaded]; [right; by exists e | left].
    apply Hkeys. right. by split.
  - intros k Hk. split; [done |]. apply Hkeys in Hk as [Hk|[? _]]; [| done].
    by apply elem_of_nil in Hk.
  - intros k v Hin. destruct (Hentries k v Hin) as [Hnil|?]; [| done].
    by apply elem_of_nil in Hnil.
  - intros k t f Hk. apply Hrange. apply Hkeys in Hk as [Hk|[? _]]; [| done].
    by apply elem_of_nil in Hk.
  - intros h. by apply hours_between_in_bounds.
Qed.

(** *** What the halves of [load] leave alone *)

Section Frame.

(** A relation between states that holds across every call logged and
    across every assignment to [data], [data_availability_dates] and
    [data_availability]. *)
Variable R : relation (state Frames Cal).
Context `{!PreOrder R}.
Hypothesis R_log : ∀ st c, R st (State (self st) (calls st ++ [c])).
Hypothesis R_data : ∀ st d, R st (State (set_data d (self st)) (calls st)).
Hypothesis R_dates :
  ∀ st v, R st (State (set_data_availability_dates v (self st)) (calls st)).
Hypothesis R_availability :
  ∀ st v, R st (State (set_data_availability v (self st)) (calls st)).

Lemma steps_load_station (station : string) : steps R (load_station station).
Proof using Type*.
  unfold imager.load_station, self_time_range, self_data.
  apply steps_bind; [apply _ | |intros tr].
  { apply steps_bind; [apply _ | intros st; reflexivity | intros im].
    destruct (time_range im); [apply steps_ret | apply steps_raise]; apply _. }
  apply steps_bind; [apply _ | intros st; reflexivity | intros im].
  apply steps_bind; [apply _ | intros st; apply R_log | intros _].
  destruct (get_frames tr (array im) station) as [[t f]|e].
  - apply steps_bind; [apply _ | intros st; apply R_log | intros _].
    apply steps_bind; [apply _ | apply steps_lift, _ | intros c].
    apply steps_bind; [apply _ | | intros d; intros st; apply R_data].
    apply steps_bind; [apply _ | intros st; reflexivity | intros im'].
    destruct (data im'); [apply steps_ret | apply steps_raise]; apply _.
  - destruct e; try (apply steps_raise; apply _).
    destruct (str_in _ _); [apply steps_ret | apply steps_raise]; apply _.
Qed.

Lemma steps_mark_loaded (station : string) :
  steps R (mark_loaded Frames Cal station).
Proof using Type*.
  unfold mark_loaded, self_data, self_data_availability.
  apply steps_bind; [apply _ | |intros d].
  { apply steps_bind; [apply _ | intros st; reflexivity | intros im].
    destruct (data im); [apply steps_ret | apply steps_raise]; apply _. }
  apply steps_bind; [apply _ | apply steps_dict_get, _ | intros entry].
  apply steps_bind; [apply _ | apply steps_lift, _ | intros unique_hours].
  apply steps_bind; [apply _ | |intros df].
  { apply steps_bind; [apply _ | intros st; reflexivity | intros im].
    destruct (data_availability im); [apply steps_ret | apply steps_raise]; apply _. }
  intros st. apply R_availability.
Qed.

Lemma steps_build_data_availability : steps R build_data_availability.
Proof using Type*.
  unfold imager.build_data_availability, self_time_range, self_data,
    self_data_availability, subscript.
  apply steps_bind; [apply _ | |intros tr].
  { apply steps_bind; [apply _ | intros st; reflexivity | intros im].
    destruct (time_range im); [apply steps_ret | apply steps_raise]; apply _. }
  apply steps_bind; [apply _ | |intros start].
  { destruct tr as [l|]; [| apply steps_raise; apply _].
    destruct (head l); [apply steps_ret | apply steps_raise]; apply _. }
  apply steps_bind; [apply _ | |intros end_].
  { destruct tr as [l|]; [| apply steps_raise; apply _].
    destruct (last l); [apply steps_ret | apply steps_raise]; apply _. }
  apply steps_bind; [apply _ | apply steps_lift, _ | intros dates].
  apply steps_bind; [apply _ | intros st; apply R_dates | intros _].
  apply steps_bind; [apply _ | intros st; reflexivity | intros im].
  apply steps_bind; [apply _ | |intros index].
  { destruct (stations im); [apply steps_ret | apply steps_raise | apply steps_ret];
      apply _. }
  apply steps_bind; [apply _ | intros st; apply R_availability | intros _].
  apply steps_bind; [apply _ | |intros df].
  { apply steps_bind; [apply _ | intros st; reflexivity | intros im'].
    destruct (data_availability im'); [apply steps_ret | apply steps_raise]; apply _. }
  apply steps_bind; [apply _ | intros st; apply R_availability | intros _].
  apply steps_bind; [apply _ | |intros d].
  { apply steps_bind; [apply _ | intros st; reflexivity | intros im'].
    destruct (data im'); [apply steps_ret | apply steps_raise]; apply _. }
  apply steps_for_each; [apply _ | apply steps_mark_loaded].
Qed.

End Frame.

#[local] Instance keeps_time_range_preorder :
  PreOrder (@keeps_time_range Frames Cal).
Proof.
  split; [by intros st | intros a b c Hab Hbc]. unfold keeps_time_range in *.
  congruence.
Qed.

#[local] Instance keeps_stations_preorder :
  PreOrder (@keeps_stations Frames Cal).
Proof.
  split; [by intros st | intros a b c Hab Hbc]. unfold keeps_stations in *.
  congruence.
Qed.

#[local] Instance grows_preorder : PreOrder (@grows Frames Cal).
Proof.
  split.
  - intros st. exists []. by rewrite app_nil_r.
  - intros a b c [m1 H1] [m2 H2]. exists (m1 ++ m2)%list.
    by rewrite H2, H1, app_assoc.
Qed.

Lemma grows_self (st : state Frames Cal)
    (f : Imager Frames Cal → Imager Frames Cal) :
  grows st (State (f (self st)) (calls st)).
Proof. exists []. cbn. by rewrite app_nil_r. Qed.

Lemma grows_log (st : state Frames Cal) (c : call) :
  grows st (State (self st) (calls st ++ [c])).
Proof. by exists [c]. Qed.

Lemma init_ok (array : string) (stations : stations_val)
    (arg : option RawTimeRange) (im : Imager Frames Cal) :
  __init__ array stations arg = Ok im →
  ∃ v, im = MkImager (upper array) stations (Some v)
              (_load_array_attributes asi_stations_csv (upper array))
              None None None
       ∧ match arg with
         | None => v = None
         | Some raw => ∃ l, _validate_time_range raw = Ok l ∧ v = Some l
         end.
Proof.
  unfold imager.__init__. destruct arg as [raw|].
  - destruct (_validate_time_range raw) as [l|e] eqn:E; [| done].
    destruct (_check_array_code (upper array)); [| done].
    intros [= <-]. exists (Some l). split; [done | by exists l].
  - destruct (_check_array_code (upper array)); [| done].
    intros [= <-]. by exists None.
Qed.

Lemma load_keeps_time_range (arg : option RawTimeRange) (st : state Frames Cal) :
  time_range (self (load arg st).2) = time_range (self st).
Proof.
  unfold imager.load. revert st. change (steps keeps_time_range
    (let* _ := _check_time_range_exists arg in
     let* _ := load_stations in build_data_availability)).
  apply steps_bind; [apply _ | |intros _].
  { intros st. unfold imager._check_time_range_exists, bind, get_self.
    by destruct (_ && _). }
  apply steps_bind; [apply _ | |intros _].
  - intros st. rewrite load_stations_eq.
    pose proof (steps_for_each keeps_time_range (stations_to_load (self st))
                  load_station) as Hloop.
    etrans; [| apply Hloop; intros x; apply steps_load_station;
               try apply _; intros ? ?; reflexivity].
    by destruct st as [[] ?].
  - apply steps_build_data_availability; try apply _; intros ? ?; reflexivity.
Qed.

(** C9. On an [Imager] made with a time range, [load] with a time range as
    argument does exactly what [load] without one does: the same result, the
    same calls to the Frame Loader, the same object afterwards; the
    [time_range] attribute still holds the validated range given at
    construction. *)
Theorem load_ignores_time_range_argument (array : string)
    (stations : stations_val) (raw t : RawTimeRange) (im : Imager Frames Cal)
    (cs : list call) :
  __init__ array stations (Some raw) = Ok im →
  load (Some t) (State im cs) = load None (State im cs)
  ∧ time_range (self (load (Some t) (State im cs)).2) = time_range im
  ∧ ∃ v, _validate_time_range raw = Ok v ∧ time_range im = Some (Some v).
Proof.
  intros (v & -> & l & Hl & ->)%init_ok. split; [| split].
  - by rewrite !load_eq by done.
  - by rewrite load_keeps_time_range.
  - by exists l.
Qed.

(** C7, on the code. [__init__] always sets the [time_range] attribute, to
    [None] when no range is given, so [hasattr(self, 'time_range')] holds and
    [_check_time_range_exists] never raises: [download()] returns without an
    error, and [load()] goes on to call the Frame Loader with [None] for the
    first station. *)
Theorem missing_time_range_not_reported (array : string)
    (stations : stations_val) (im : Imager Frames Cal) (cs : list call) :
  __init__ array stations None = Ok im →
  time_range im = Some None
  ∧ _check_time_range_exists None (State im cs) = (Ok tt, State im cs)
  ∧ download None (State im cs) = (Ok tt, State im cs)
  ∧ ∀ station rest,
      stations_to_load im = station :: rest →
      ∃ more,
        calls (load None (State im cs)).2
        = (cs ++ CallGetFrames None (imager.array im) station :: more)%list.
Proof.
  intros (v & -> & ->)%init_ok. split; [done | split; [done | split; [done |]]].
  intros station rest Hstations. rewrite load_eq by done.
  rewrite load_stations_eq. cbn [self calls]. rewrite Hstations.
  cbn [for_each].
  unfold bind at 1. erewrite load_station_eq by reflexivity.
  cbn [imager.array self calls set_stations set_data].
  assert (∀ st : state Frames Cal,
            grows st (for_each rest load_station st).2) as Hloop.
  { apply steps_for_each; [apply _ | intros x].
    apply steps_load_station; try apply _; intros st' ?;
      first [apply grows_log | apply grows_self]. }
  assert (∀ st : state Frames Cal, grows st (build_data_availability st).2)
    as Hbuild.
  { apply steps_build_data_availability; try apply _; intros st' ?;
      first [apply grows_log | apply grows_self]. }
  assert (∀ (r : result unit) (st : state Frames Cal),
            grows st (match (r, st) with
                      | (Ok _, st') => build_data_availability st'
                      | (Raise e, st') => (Raise e, st')
                      end).2) as Hend.
  { intros [?|?] st'; [apply Hbuild | reflexivity]. }
  unfold calls_for.
  destruct (get_frames None (upper array) station) as [[t f]|e].
  - destruct (load_cal (upper array) station) as [c|e].
    + match goal with |- context [for_each rest ?b ?st0] =>
        pose proof (Hloop st0) as [m1 H1];
        destruct (for_each rest b st0) as [r st1] end.
      destruct (Hend r st1) as [m2 H2]. cbn [snd calls] in H1.
      rewrite H2, H1, <- ?app_assoc. by eexists.
    + cbn. rewrite <- ?app_assoc. by eexists.
  - destruct (station_no_data e).
    + match goal with |- context [for_each rest ?b ?st0] =>
        pose proof (Hloop st0) as [m1 H1];
        destruct (for_each rest b st0) as [r st1] end.
      destruct (Hend r st1) as [m2 H2]. cbn [snd calls] in H1.
      rewrite H2, H1, <- ?app_assoc. by eexists.
    + cbn. rewrite <- ?app_assoc. by eexists.
Qed.

Lemma load_stations_normalizes (st : state Frames Cal) :
  stations (self (load_stations st).2) = normalized (stations (self st))
  ∧ time_range (self (load_stations st).2) = time_range (self st).
Proof.
  rewrite load_stations_eq.
  pose proof (steps_for_each keeps_stations (stations_to_load (self st))
                load_station) as Hs.
  pose proof (steps_for_each keeps_time_range (stations_to_load (self st))
                load_station) as Ht.
  split.
  - etrans; [apply Hs; intros x; apply steps_load_station; try apply _;
             intros ? ?; reflexivity |].
    by destruct st as [[] ?].
  - etrans; [apply Ht; intros x; apply steps_load_station; try apply _;
             intros ? ?; reflexivity |].
    by destruct st as [[] ?].
Qed.

Lemma build_keeps_stations (st : state Frames Cal) :
  stations (self (build_data_availability st).2) = stations (self st).
Proof.
  revert st. change (steps keeps_stations build_data_availability).
  apply steps_build_data_availability; try apply _; intros ? ?; reflexivity.
Qed.

(** C10. When [load] returns, [self.stations] holds the normalized form of
    what it held before: [None] stays [None], text is upper-cased and split
    at white space into a list, and any other collection becomes the list
    of its upper-cased codes; so it is [None] or a list of upper-case
    strings. *)
Theorem load_normalizes_stations (arg : option RawTimeRange)
    (st : state Frames Cal) :
  (load arg st).1 = Ok tt →
  stations (self (load arg st).2) = normalized (stations (self st))
  ∧ (stations (self (load arg st).2) = StationsNone
     ∨ ∃ l, stations (self (load arg st).2) = StationsSeq l
            ∧ Forall is_uppercase l).
Proof.
  intros Hok.
  assert (stations (self (load arg st).2) = normalized (stations (self st)))
    as Hnorm.
  { revert Hok. unfold imager.load. unfold bind at 1 3.
    destruct (_check_time_range_exists arg st) as [[[]|e] st0] eqn:Hcheck;
      [| done].
    assert (st0 = st) as ->.
    { revert Hcheck. unfold imager._check_time_range_exists, bind, get_self.
      destruct (_ && _); [done | by intros [= <-]]. }
    unfold bind. destruct (load_stations_normalizes st) as [Hs Ht].
    destruct (load_stations st) as [[[]|e] st1]; [| done].
    cbn [snd] in Hs, Ht. intros Hbuild. by rewrite build_keeps_stations. }
  split; [done |]. rewrite Hnorm.
  destruct (stations (self st)) as [|s|l]; cbn [normalized].
  - by left.
  - right. eexists. split; [done | apply split_upper_uppercase].
  - right. eexists. split; [done | apply map_upper_uppercase].
Qed.

(** *** What [__init__] accepts and what [load] never changes *)

(** X13. [__init__] accepts the array code whatever its letter case, when
    the upper-cased code is a supported array and the time range, if one is
    given, validates; the object then holds the upper-cased code, the
    stations as given, the rows of the station table of that array, and no
    data yet.  An error of the validation comes first; an array that is not
    supported is an [AssertionError]. *)
Theorem init_accepts_supported_arrays (array : string)
    (stations : stations_val) (arg : option RawTimeRange) :
  (∀ im, __init__ array stations arg = Ok im →
     upper array ∈ supported_arrays
     ∧ imager.array im = upper array
     ∧ imager.stations im = stations
     ∧ (∀ a s, (a, s) ∈ array_attributes im
               ↔ (a, s) ∈ asi_stations_csv ∧ upper a = upper array)
     ∧ data im = None ∧ data_availability im = None)
  ∧ (∀ raw e, arg = Some raw → _validate_time_range raw = Raise e →
       __init__ array stations arg = Raise e)
  ∧ (upper array ∉ supported_arrays →
     (∀ raw, arg = Some raw → ∃ l, _validate_time_range raw = Ok l) →
     ∃ msg, __init__ array stations arg = Raise (AssertionError msg))
  ∧ (upper array ∈ supported_arrays →
     (∀ raw, arg = Some raw → ∃ l, _validate_time_range raw = Ok l) →
     ∃ im, __init__ array stations arg = Ok im).
Proof.
  split; [| split; [| split]].
  - intros im Hinit.
    assert (upper array ∈ supported_arrays) as Hin.
    { revert Hinit. unfold imager.__init__, _check_array_code.
      destruct (match arg with Some raw => _ | None => _ end); [| done].
      by destruct (bool_decide_reflect (upper array ∈ supported_arrays)). }
    apply init_ok in Hinit as (v & -> & _). cbn.
    split; [done | split; [done | split; [done | split; [| done]]]].
    intros a s. unfold _load_array_attributes.
    rewrite (list_elem_of_filter (λ row : string * string,
               upper row.1 = upper array)). cbn. tauto.
  - intros raw e -> He. unfold imager.__init__. by rewrite He.
  - intros Hnot Hvalid. unfold imager.__init__, _check_array_code.
    rewrite bool_decide_eq_false_2 by done.
    destruct arg as [raw|]; [| by eexists].
    destruct (Hvalid raw eq_refl) as [l ->]. by eexists.
  - intros Hin Hvalid. unfold imager.__init__, _check_array_code.
    rewrite bool_decide_eq_true_2 by done.
    destruct arg as [raw|]; [| by eexists].
    destruct (Hvalid raw eq_refl) as [l ->]. by eexists.
Qed.

#[local] Instance keeps_array_preorder : PreOrder (@keeps_array Frames Cal).
Proof.
  split; [by intros st | intros a b c (? & ? & ?) (? & ? & ?)].
  unfold keeps_array. repeat split; congruence.
Qed.

Lemma load_steps_keeps_array (arg : option RawTimeRange) :
  steps keeps_array (load arg).
Proof.
  unfold imager.load.
  apply steps_bind; [apply _ | |intros _].
  { intros st. unfold imager._check_time_range_exists, bind, get_self.
    by destruct (_ && _). }
  apply steps_bind; [apply _ | |intros _].
  - intros st. rewrite load_stations_eq.
    pose proof (steps_for_each keeps_array (stations_to_load (self st))
                  load_station) as Hloop.
    etrans; [| apply Hloop; intros x; apply steps_load_station;
               try apply _; intros ? ?; by repeat split].
    by destruct st as [[] ?].
  - apply steps_build_data_availability; try apply _; intros ? ?; by repeat split.
Qed.

(** X14. However [load] ends, it leaves the array code, the rows of the
    station table and the time range of the object as they were; and
    [download] changes nothing of the object and calls no loader. *)
Theorem load_keeps_array (arg : option RawTimeRange) (st : state Frames Cal) :
  imager.array (self (load arg st).2) = imager.array (self st)
  ∧ array_attributes (self (load arg st).2) = array_attributes (self st)
  ∧ time_range (self (load arg st).2) = time_range (self st)
  ∧ (download arg st).2 = st.
Proof.
  destruct (load_steps_keeps_array arg st) as (Ha & Haa & Ht).
  repeat split; try done.
  unfold imager.download, imager._check_time_range_exists, bind, get_self.
  by destruct (_ && _).
Qed.

Lemma replace_to_hour_eq (t : datetime) :
  replace_to_hour t = (us_per_hour * (t / us_per_hour))%Z.
Proof.
  unfold replace_to_hour, us_per_hour.
  pose proof (Z.div_mod t 3600000000 ltac:(lia)). lia.
Qed.

(** The hours from the hour of the first to the hour of the last time are
    whole hours, and the hour of every time between the two is one. *)
Lemma hours_between_cover (start end_ : datetime) :
  (∀ h, h ∈ hours_between (replace_to_hour start) (replace_to_hour end_) →
        replace_to_hour h = h
        ∧ (replace_to_hour start <= h <= replace_to_hour end_)%Z)
  ∧ (∀ t, (start <= t <= end_)%Z →
          replace_to_hour t
          ∈ hours_between (replace_to_hour start) (replace_to_hour end_)).
Proof.
  split.
  - intros h (k & -> & Hle)%elem_of_hours_between.
    split; [| unfold us_per_hour in *; lia].
    rewrite (replace_to_hour_eq start).
    rewrite replace_to_hour_eq. unfold us_per_hour.
    replace (3600000000 * (start / 3600000000) + Z.of_nat k * 3600000000)%Z
      with ((start / 3600000000 + Z.of_nat k) * 3600000000)%Z by lia.
    rewrite Z.div_mul by lia. lia.
  - intros t [Hs He]. apply elem_of_hours_between.
    pose proof (Z.div_le_mono start t 3600000000 ltac:(lia) Hs) as Hq.
    pose proof (Z.div_le_mono t end_ 3600000000 ltac:(lia) He) as Hq'.
    exists (Z.to_nat (t / 3600000000 - start / 3600000000)).
    rewrite !replace_to_hour_eq. unfold us_per_hour. split; lia.
Qed.

(** *** When [load] returns, and what it leaves when it does not *)

Lemma for_each_app {S A} (l1 l2 : list A) (body : A → M S unit) (st : S) :
  for_each (l1 ++ l2) body st
  = match for_each l1 body st with
    | (Ok _, st') => for_each l2 body st'
    | (Raise e, st') => (Raise e, st')
    end.
Proof.
  revert st. induction l1 as [|x l1 IH]; intros st; cbn [app for_each]; [done |].
  unfold bind. destruct (body x st) as [[[]|e] st']; [apply IH | done].
Qed.

Lemma dict_set_NoDup {V} (key : string) (value : V) (d : list (string * V)) :
  NoDup d.*1 → NoDup (dict_set key value d).*1.
Proof.
  induction d as [|[k v] d IH]; cbn [dict_set fmap list_fmap].
  - intros _. apply NoDup_singleton.
  - intros [Hk Hd]%NoDup_cons. destruct (String.eqb_spec k key) as [->|Hne].
    + by apply NoDup_cons.
    + cbn [fmap list_fmap]. apply NoDup_cons. split; [| by apply IH].
      cbn. rewrite dict_set_keys. intros [?|?]; done.
Qed.

(** The loop returns only when every station is skipped or loaded. *)
Lemma loop_ok_inv (stations : list string) (st : state Frames Cal)
    (tr : option (list datetime)) (d : list (string * station_data Frames Cal)) :
  time_range (self st) = Some tr → data (self st) = Some d →
  (for_each stations load_station st).1 = Ok tt →
  Forall (λ x, skipped tr (array (self st)) x ∨ loaded tr (array (self st)) x)
    stations.
Proof.
  revert st d. induction stations as [|x stations IH]; intros st d Htr Hd Hok;
    [constructor |].
  cbn [for_each] in Hok. unfold bind at 1 in Hok.
  rewrite (load_station_eq _ _ _ _ Htr Hd) in Hok.
  destruct (get_frames tr (array (self st)) x) as [[t f]|e] eqn:Hf.
  - destruct (load_cal (array (self st)) x) as [c|e] eqn:Hc; [| done].
    constructor; [right; by exists t, f, c |].
    exact (IH (State (set_data (dict_set x (StationData t f c) d) (self st))
                 (calls st ++ calls_for tr (array (self st)) x))
              (dict_set x (StationData t f c) d) Htr eq_refl Hok).
  - destruct (station_no_data e) eqn:Hno; [| done].
    constructor; [left; by exists e |].
    exact (IH (State (self st) (calls st ++ calls_for tr (array (self st)) x))
              d Htr Hd Hok).
Qed.

(** However the loop ends, no station is twice among the keys of [data]. *)
Lemma loop_nodup (stations : list string) (st : state Frames Cal)
    (tr : option (list datetime)) (d : list (string * station_data Frames Cal)) :
  time_range (self st) = Some tr → data (self st) = Some d → NoDup d.*1 →
  ∃ d', data (self (for_each stations load_station st).2) = Some d'
        ∧ NoDup d'.*1.
Proof.
  revert st d. induction stations as [|x stations IH]; intros st d Htr Hd Hnd;
    [by exists d |].
  cbn [for_each]. unfold bind at 1.
  rewrite (load_station_eq _ _ _ _ Htr Hd).
  destruct (get_frames tr (array (self st)) x) as [[t f]|e].
  - destruct (load_cal (array (self st)) x) as [c|e]; [| by exists d].
    apply (IH (State (set_data (dict_set x (StationData t f c) d) (self st))
                 (calls st ++ calls_for tr (array (self st)) x))
              (dict_set x (StationData t f c) d) Htr eq_refl).
    by apply dict_set_NoDup.
  - destruct (station_no_data e); [| by exists d].
    exact (IH (State (self st) (calls st ++ calls_for tr (array (self st)) x))
              d Htr Hd Hnd).
Qed.

Lemma dict_get_pure {S V} (key : string) (d : list (string * V)) :
  ∃ r : result V,
    (∀ st : S, dict_get key d st = (r, st))
    ∧ ∀ v, r = Ok v → (key, v) ∈ d.
Proof.
  induction d as [|[k v] d IH]; cbn [dict_get].
  - by exists (Raise (KeyError key)).
  - destruct (String.eqb_spec k key) as [->|Hne].
    + exists (Ok v). split; [done |]. intros v' [= <-]. left.
    + destruct IH as (r & Hrun & Hin). exists r. split; [done |].
      intros v' Hv'. right. by apply Hin.
Qed.

Lemma add_columns_columns (labels : list datetime) (df : DataFrame) :
  ∃ more, columns (foldl add_column df labels) = (columns df ++ more)%list
          ∧ ∀ h, h ∈ more → h ∈ labels.
Proof.
  revert df. induction labels as [|l labels IH]; intros df; cbn [foldl].
  - exists []. split; [by rewrite app_nil_r | done].
  - destruct (IH (add_column df l)) as (more & Heq & Hin). rewrite Heq.
    unfold add_column. destruct (bool_decide (l ∈ columns df)).
    + exists more. split; [done |]. intros h ?. right. by apply Hin.
    + cbn [columns]. exists (l :: more).
      split; [by rewrite <- app_assoc |].
      intros h [->|?]%elem_of_cons; [left | right; by apply Hin].
Qed.

Lemma loc_set_columns (label : string) (labels : list datetime)
    (value : string) (df : DataFrame) :
  ∃ more, columns (loc_set label labels value df) = (columns df ++ more)%list
          ∧ ∀ h, h ∈ more → h ∈ labels.
Proof.
  destruct (add_columns_columns labels df) as (more & Heq & Hin).
  exists more. split; [| done]. unfold loc_set.
  by destruct (bool_decide _).
Qed.

Lemma marks_refl (im : Imager Frames Cal) : marks im im.
Proof.
  split; [done | split; [done |]]. intros df Hdf. exists df, [].
  split; [done | split; [by rewrite app_nil_r |]].
  intros h Hh. by apply elem_of_nil in Hh.
Qed.

Lemma marks_trans (im1 im2 im3 : Imager Frames Cal) :
  marks im1 im2 → marks im2 im3 → marks im1 im3.
Proof.
  intros (Hd1 & Hdd1 & Ht1) (Hd2 & Hdd2 & Ht2).
  split; [congruence | split; [congruence |]]. intros df Hdf.
  destruct (Ht1 df Hdf) as (df1 & more1 & Hdf1 & Hc1 & Hm1).
  destruct (Ht2 df1 Hdf1) as (df2 & more2 & Hdf2 & Hc2 & Hm2).
  exists df2, (more1 ++ more2)%list.
  split; [done | split; [by rewrite Hc2, Hc1, <- app_assoc |]].
  intros h [?|?]%elem_of_app; [by apply Hm1 |].
  rewrite <- Hd1. by apply Hm2.
Qed.

(** Marking a station does the same whatever calls were made before. *)
Lemma mark_loaded_run (k : string) (im : Imager Frames Cal) :
  ∃ r im', marks im im'
           ∧ ∀ cs, mark_loaded Frames Cal k (State im cs) = (r, State im' cs).
Proof.
  destruct im as [a s t aa d dd da].
  unfold mark_loaded, self_data, self_data_availability, bind, get_self,
    set_self. cbn [self calls data data_availability].
  destruct d as [d|];
    [| exists (Raise (AttributeError
                        "'Imager' object has no attribute 'data'")),
              (MkImager a s t aa None dd da); split; [apply marks_refl | done]].
  destruct (dict_get_pure (S := state Frames Cal) k d)
    as ([entry|e] & Hget & Hentry).
  - destruct (to_datetime (sorted_set (map replace_to_hour (times entry))))
      as [hours|e] eqn:Hhours.
    + destruct da as [df|].
      * exists (Ok tt),
          (MkImager a s t aa (Some d) dd (Some (loc_set k hours "Loaded" df))).
        split; [| intros cs; cbn [ret]; rewrite Hget; cbn; by rewrite Hhours].
        split; [done | split; [done |]]. intros df0 [= <-].
        destruct (loc_set_columns k hours "Loaded" df) as (more & Hc & Hm).
        exists (loc_set k hours "Loaded" df), more.
        split; [done | split; [done |]]. intros h Hh%Hm.
        assert (hours = sorted_set (map replace_to_hour (times entry))) as ->.
        { revert Hhours. unfold to_datetime.
          destruct (forallb _ _); [by intros [= <-] | done]. }
        rewrite elem_of_sorted_set in Hh.
        apply list_elem_of_fmap in Hh as (x & -> & Hx).
        exists d, k, entry, x. cbn.
        split; [done | split; [by apply Hentry | done]].
      * exists (Raise (AttributeError
                         "'Imager' object has no attribute 'data_availability'")),
               (MkImager a s t aa (Some d) dd None).
        split; [apply marks_refl |].
        intros cs. cbn [ret]. rewrite Hget. cbn. by rewrite Hhours.
    + exists (Raise e), (MkImager a s t aa (Some d) dd da).
      split; [apply marks_refl |].
      intros cs. cbn [ret]. rewrite Hget. cbn. by rewrite Hhours.
  - exists (Raise e), (MkImager a s t aa (Some d) dd da).
    split; [apply marks_refl |]. intros cs. cbn [ret]. by rewrite Hget.
Qed.

Lemma mark_loop_run (keys : list string) (im : Imager Frames Cal) :
  ∃ r im', marks im im'
           ∧ ∀ cs, for_each keys (mark_loaded Frames Cal) (State im cs)
                   = (r, State im' cs).
Proof.
  revert im. induction keys as [|k keys IH]; intros im;
    [exists (Ok tt), im; split; [apply marks_refl | done] |].
  destruct (mark_loaded_run k im) as ([[]|e] & im1 & Hm1 & Hrun1).
  - destruct (IH im1) as (r & im2 & Hm2 & Hrun2). exists r, im2.
    split; [by eapply marks_trans |]. intros cs. cbn [for_each]. unfold bind.
    by rewrite Hrun1.
  - exists (Raise e), im1. split; [done |]. intros cs. cbn [for_each].
    unfold bind. by rewrite Hrun1.
Qed.

(** The table part of [load]: it leaves [data] alone, and when it returns
    the dates are the hours of the range and the table has them as columns
    and no other but the hour of a loaded frame. *)
Lemma build_run (st : state Frames Cal) :
  data (self (build_data_availability st).2) = data (self st)
  ∧ ((build_data_availability st).1 = Ok tt →
     ∃ tr start end_ dates df d,
       time_range (self st) = Some (Some tr)
       ∧ head tr = Some start ∧ last tr = Some end_
       ∧ date_range_H (replace_to_hour start) (replace_to_hour end_) = Ok dates
       ∧ data (self st) = Some d
       ∧ data_availability_dates (self (build_data_availability st).2)
         = Some dates
       ∧ data_availability (self (build_data_availability st).2) = Some df
       ∧ (∀ h, h ∈ dates → h ∈ columns df)
       ∧ (∀ h, h ∈ columns df →
               h ∈ dates
               ∨ ∃ k v t, (k, v) ∈ d ∧ t ∈ times v ∧ replace_to_hour t = h)).
Proof.
  destruct st as [[a s t aa d dd da] cs].
  unfold imager.build_data_availability, self_time_range, self_data,
    self_data_availability, subscript, bind, get_self, set_self.
  destruct t as [[l|]|]; [| done | done].
  cbn -[for_each date_range_H replace_to_hour new_DataFrame replace_nan].
  destruct (head l) as [start|] eqn:Hhead; [| done].
  cbn -[for_each date_range_H replace_to_hour new_DataFrame replace_nan].
  destruct (last l) as [end_|] eqn:Hlast; [| done].
  cbn -[for_each date_range_H replace_to_hour new_DataFrame replace_nan].
  destruct (date_range_H (replace_to_hour start) (replace_to_hour end_))
    as [dates|e] eqn:Hdates; [| done].
  destruct s, d as [d|]; try done;
    cbn -[for_each date_range_H replace_to_hour new_DataFrame replace_nan];
    match goal with |- context [for_each ?keys _ (State ?im ?c)] =>
      destruct (mark_loop_run keys im) as (r & im' & (Hd & Hdd & Htable) & Hrun);
      rewrite Hrun; cbn [fst snd self]; (split; [exact Hd |]); intros _;
      destruct (Htable _ eq_refl) as (df' & more & Hdf' & Hc & Hm);
      exists l, start, end_, dates, df', d;
      (do 5 (split; [done |])); (split; [exact Hdd |]); (split; [exact Hdf' |]);
      rewrite Hc; cbn [columns replace_nan new_DataFrame]; split;
      [ intros h ?; apply elem_of_app; by left
      | intros h [?|Hh]%elem_of_app; [by left | right];
        destruct (Hm h Hh) as (d0 & k & v & x & [= <-] & ? & ? & ?);
        by exists k, v, x ]
    end.
Qed.

Lemma build_keeps_data (st : state Frames Cal) :
  data (self (build_data_availability st).2) = data (self st).
Proof. apply build_run. Qed.

Lemma build_ok_inv (st : state Frames Cal) :
  (build_data_availability st).1 = Ok tt →
  ∃ tr start end_,
    time_range (self st) = Some (Some tr)
    ∧ head tr = Some start ∧ last tr = Some end_.
Proof.
  intros Hok. destruct (build_run st) as [_ Hrun].
  destruct (Hrun Hok) as (tr & start & end_ & _ & _ & _ & ? & ? & ? & _).
  by exists tr, start, end_.
Qed.

Lemma load_ok_split (arg : option RawTimeRange) (st : state Frames Cal) :
  (load arg st).1 = Ok tt →
  (load_stations st).1 = Ok tt
  ∧ load arg st = build_data_availability (load_stations st).2.
Proof.
  unfold imager.load. unfold bind at 1 3.
  destruct (_check_time_range_exists arg st) as [[[]|e] st0] eqn:Hcheck;
    [| done].
  assert (st0 = st) as ->.
  { revert Hcheck. unfold imager._check_time_range_exists, bind, get_self.
    destruct (_ && _); [done | by intros [= <-]]. }
  unfold bind. by destruct (load_stations st) as [[[]|e] st1].
Qed.

(** X16. [load] returns only when the time range of the object is a list
    with a first and a last time and every station it goes through is
    skipped or loaded; [data] then has one entry for each loaded station
    and no other. *)
Theorem load_returns_only_if (arg : option RawTimeRange)
    (st : state Frames Cal) :
  (load arg st).1 = Ok tt →
  ∃ tr start end_ d,
    time_range (self st) = Some (Some tr)
    ∧ head tr = Some start ∧ last tr = Some end_
    ∧ Forall (λ x, skipped (Some tr) (array (self st)) x
                   ∨ loaded (Some tr) (array (self st)) x)
        (stations_to_load (self st))
    ∧ data (self (load arg st).2) = Some d
    ∧ NoDup d.*1
    ∧ ∀ k, k ∈ d.*1
           ↔ k ∈ stations_to_load (self st)
             ∧ loaded (Some tr) (array (self st)) k.
Proof.
  intros Hok. destruct (load_ok_split _ _ Hok) as [Hloop Heq].
  rewrite Heq in Hok |- *. clear Heq.
  destruct (load_stations_normalizes st) as [_ Htime].
  rewrite build_keeps_data.
  destruct (build_ok_inv _ Hok) as (tr & start & end_ & Htr & Hhead & Hlast).
  rewrite Htime in Htr. exists tr, start, end_.
  revert Hloop. rewrite load_stations_eq. intros Hloop.
  pose proof (loop_ok_inv (stations_to_load (self st))
                (State (set_stations (normalized (stations (self st)))
                          (set_data [] (self st))) (calls st))
                (Some tr) [] Htr eq_refl Hloop) as Hpass.
  cbn [self array set_stations set_data] in Hpass.
  destruct (loop_completes (stations_to_load (self st))
              (State (set_stations (normalized (stations (self st)))
                        (set_data [] (self st))) (calls st))
              (Some tr) [] Htr eq_refl Hpass) as (d & Heq & Hkeys & _).
  destruct (loop_nodup (stations_to_load (self st))
              (State (set_stations (normalized (stations (self st)))
                        (set_data [] (self st))) (calls st))
              (Some tr) [] Htr eq_refl NoDup_nil_2) as (d' & Hd' & Hnd).
  rewrite Heq in Hd' |- *. cbn [snd self data set_data] in Hd' |- *.
  injection Hd' as <-. exists d.
  do 6 (split; [done |]).
  intros k. rewrite Hkeys. cbn. rewrite elem_of_nil. tauto.
Qed.

(** X17. When [load] raises while loading a station, the object is left
    half-way: [stations] is normalized, [data] holds the stations loaded
    before the failing one and no other, and the availability table and its
    dates are those of before the call. *)
Theorem load_failure_leaves_partial_data (arg : option RawTimeRange)
    (st : state Frames Cal) (tr : option (list datetime))
    (before : list string) (station : string) (rest : list string)
    (e : exn) :
  time_range (self st) = Some tr →
  stations_to_load (self st) = (before ++ station :: rest)%list →
  Forall (λ x, skipped tr (array (self st)) x ∨ loaded tr (array (self st)) x)
    before →
  fails_with tr (array (self st)) station e →
  (load arg st).1 = Raise e
  ∧ stations (self (load arg st).2) = normalized (stations (self st))
  ∧ data_availability (self (load arg st).2) = data_availability (self st)
  ∧ data_availability_dates (self (load arg st).2)
    = data_availability_dates (self st)
  ∧ ∃ d, data (self (load arg st).2) = Some d
         ∧ ∀ k, k ∈ d.*1 ↔ k ∈ before ∧ loaded tr (array (self st)) k.
Proof.
  intros Htr Hsplit Hpass Hfail.
  rewrite load_eq by (by rewrite Htr).
  rewrite load_stations_eq, Hsplit, for_each_app.
  destruct (loop_completes before
              (State (set_stations (normalized (stations (self st)))
                        (set_data [] (self st))) (calls st))
              tr [] Htr eq_refl Hpass) as (d & -> & Hkeys & _).
  assert (∀ (st1 : state Frames Cal) d1,
            time_range (self st1) = Some tr → data (self st1) = Some d1 →
            array (self st1) = array (self st) →
            for_each (station :: rest) load_station st1
            = (Raise e,
               State (self st1)
                 (calls st1 ++ calls_for tr (array (self st)) station)))
    as Hstop.
  { intros st1 d1 Ht1 Hd1 Ha1. cbn [for_each]. unfold bind.
    rewrite (load_station_eq _ _ _ _ Ht1 Hd1), Ha1.
    by destruct Hfail as [[-> ->]|(t' & f & -> & ->)]. }
  rewrite (Hstop _ d) by (by destruct st as [[] ?]).
  assert (∀ k, k ∈ d.*1 ↔ k ∈ before ∧ loaded tr (array (self st)) k) as Hd.
  { intros k. rewrite Hkeys. cbn. rewrite elem_of_nil. tauto. }
  destruct st as [[a s t aa d0 dd da] cs]. cbn in *.
  do 4 (split; [done |]). by exists d.
Qed.

(** X15. When [load] returns, [data_availability_dates] holds whole
    hours from the hour of the first to the hour of the last time of the
    range, the hour of every time between the two among them; the
    availability table has each of them as a column, and no other column
    but the hour of a frame of a loaded station. *)
Theorem load_table_hours (arg : option RawTimeRange) (st : state Frames Cal) :
  (load arg st).1 = Ok tt →
  ∃ tr start end_ dates df d,
    time_range (self st) = Some (Some tr)
    ∧ head tr = Some start ∧ last tr = Some end_
    ∧ data_availability_dates (self (load arg st).2) = Some dates
    ∧ data_availability (self (load arg st).2) = Some df
    ∧ data (self (load arg st).2) = Some d
    ∧ (∀ h, h ∈ dates →
            replace_to_hour h = h
            ∧ (replace_to_hour start <= h <= replace_to_hour end_)%Z)
    ∧ (∀ t, (start <= t <= end_)%Z → replace_to_hour t ∈ dates)
    ∧ (∀ h, h ∈ dates → h ∈ columns df)
    ∧ (∀ h, h ∈ columns df →
            h ∈ dates
            ∨ ∃ k v t, (k, v) ∈ d ∧ t ∈ times v ∧ replace_to_hour t = h).
Proof.
  intros Hok. destruct (load_ok_split _ _ Hok) as [_ Heq].
  rewrite Heq in Hok |- *. clear Heq.
  destruct (build_run (load_stations st).2) as [Hdata Hrun].
  destruct (Hrun Hok)
    as (tr & start & end_ & dates & df & d & Htr & Hhead & Hlast & Hdates
        & Hd & Hdd & Hdf & Hcols & Hmore).
  destruct (load_stations_normalizes st) as [_ Htime]. rewrite Htime in Htr.
  assert (dates = hours_between (replace_to_hour start) (replace_to_hour end_))
    as ->.
  { revert Hdates. unfold date_range_H.
    destruct (_ && _); [by intros [= <-] | done]. }
  exists tr, start, end_,
    (hours_between (replace_to_hour start) (replace_to_hour end_)), df, d.
  do 5 (split; [done |]). split; [by rewrite Hdata |].
  split; [apply hours_between_cover | split; [apply hours_between_cover |]].
  done.
Qed.

(** *** Loading again *)

Lemma stations_to_load_normalized (im : Imager Frames Cal) :
  stations_to_load im
  = match normalized (stations im) with
    | StationsNone => map snd (array_attributes im)
    | StationsStr _ => []
    | StationsSeq l => l
    end.
Proof. unfold stations_to_load. by destruct (stations im). Qed.

Lemma build_respects (st st' : state Frames Cal) :
  alike st st' →
  (build_data_availability st).1 = (build_data_availability st').1
  ∧ ((build_data_availability st).1 = Ok tt →
     self (build_data_availability st).2
     = self (build_data_availability st').2).
Proof.
  destruct st as [[a s t aa d dd da] cs], st' as [[a' s' t' aa' d' dd' da'] cs'].
  intros (Ha & Hs & Ht & Haa & Hd).
  cbn [self array stations time_range array_attributes data] in *. subst.
  unfold imager.build_data_availability, self_time_range, self_data,
    self_data_availability, subscript, bind, get_self, set_self.
  destruct t' as [[l|]|]; [| done | done].
  cbn -[for_each date_range_H replace_to_hour new_DataFrame replace_nan].
  destruct (head l); [| done].
  cbn -[for_each date_range_H replace_to_hour new_DataFrame replace_nan].
  destruct (last l); [| done].
  cbn -[for_each date_range_H replace_to_hour new_DataFrame replace_nan].
  destruct (date_range_H _ _) as [dates|e]; [| done].
  destruct s', d' as [d1|]; try done;
    cbn -[for_each date_range_H replace_to_hour new_DataFrame replace_nan];
    match goal with |- context [for_each ?keys _ (State ?im cs)] =>
      destruct (mark_loop_run keys im) as (r & im' & _ & Hrun);
      by rewrite !Hrun
    end.
Qed.

Lemma map_upper_id (l : list string) : Forall is_uppercase l → map upper l = l.
Proof.
  induction 1 as [|x l Hx _ IH]; [done |]. cbn. by rewrite Hx, IH.
Qed.

Lemma normalized_idem (v : stations_val) :
  normalized (normalized v) = normalized v.
Proof.
  destruct v as [|s|l]; cbn [normalized]; [done | |]; f_equal;
    apply map_upper_id; [apply split_upper_uppercase | apply map_upper_uppercase].
Qed.

End Loaders.

Section Again.

(** The loaders as they answer a first call of [load], and as they answer
    a second one. *)
Variables Frames Cal RawTimeRange : Type.
Variables get_frames get_frames' :
  option (list datetime) → string → string → result (list datetime * Frames).
Variables load_cal load_cal' : string → string → result Cal.

Abbreviation load := (imager.load Frames Cal RawTimeRange get_frames load_cal).
Abbreviation load' :=
  (imager.load Frames Cal RawTimeRange get_frames' load_cal').
Abbreviation load_station :=
  (imager.load_station Frames Cal get_frames load_cal).
Abbreviation load_station' :=
  (imager.load_station Frames Cal get_frames' load_cal').
Abbreviation load_stations :=
  (imager.load_stations Frames Cal get_frames load_cal).
Abbreviation load_stations' :=
  (imager.load_stations Frames Cal get_frames' load_cal').

Lemma for_each_agree {S A} (R : relation S) (xs : list A)
    (body body' : A → M S unit) :
  (∀ x, x ∈ xs → agree R (body x) (body' x)) →
  agree R (for_each xs body) (for_each xs body').
Proof.
  intros Hbody. induction xs as [|x xs IH]; intros st st' HR; cbn [for_each];
    [done |].
  unfold bind. destruct (Hbody x ltac:(left) st st' HR) as [Hr HR'].
  destruct (body x st) as [[[]|e] st1], (body' x st') as [[[]|e'] st1'];
    cbn [fst snd] in *; try discriminate.
  - apply IH; [| done]. intros y ?. apply Hbody. by right.
  - done.
Qed.

(** One turn of the station loop, when the loaders answer for the station
    as before. *)
Lemma load_station_agree (a : string) (tr : option (list datetime))
    (station : string) :
  get_frames' tr a station = get_frames tr a station →
  load_cal' a station = load_cal a station →
  agree (alike_at a tr) (load_station station) (load_station' station).
Proof.
  intros Hgf Hlc [[a0 s t aa d dd da] cs] [[a' s' t' aa' d' dd' da'] cs']
    ((Ha & Hs & Ht & Haa & Hd) & Harr & Htr).
  cbn [self array stations time_range array_attributes data] in *. subst.
  unfold imager.load_station, self_time_range, self_data, get_self, log_call,
    set_self, bind, alike_at, alike.
  cbn. rewrite Hgf.
  destruct (get_frames tr _ station) as [[times frames]|e]; cbn.
  - rewrite Hlc. destruct (load_cal _ station) as [c|e]; cbn; [| done].
    by destruct d'.
  - destruct e; cbn; try done.
    by destruct (str_in no_data_marker msg).
Qed.

Lemma load_stations_agree (st st' : state Frames Cal)
    (tr : option (list datetime)) :
  same_inputs st st' →
  time_range (self st) = Some tr →
  (∀ station, station ∈ stations_to_load (self st) →
     get_frames' tr (array (self st)) station
     = get_frames tr (array (self st)) station
     ∧ load_cal' (array (self st)) station = load_cal (array (self st)) station) →
  (load_stations st).1 = (load_stations' st').1
  ∧ alike (load_stations st).2 (load_stations' st').2.
Proof.
  intros (Ha & Haa & Ht & Hs) Htr Hsame. rewrite !load_stations_eq.
  rewrite (stations_to_load_normalized _ _ (self st')), <- Hs, <- Haa,
    <- (stations_to_load_normalized _ _ (self st)).
  destruct (for_each_agree (alike_at (array (self st)) tr)
              (stations_to_load (self st)) load_station load_station')
    with (st := State (set_stations (normalized (stations (self st)))
                         (set_data [] (self st))) (calls st))
         (st' := State (set_stations (normalized (stations (self st)))
                          (set_data [] (self st'))) (calls st'))
    as (Hr & Halike & _).
  - intros x Hx. destruct (Hsame x Hx). by apply load_station_agree.
  - destruct st as [[] ?], st' as [[] ?]. cbn in *. by repeat split.
  - done.
Qed.

(** [load] starts afresh: what it returns and what it leaves in the object
    depend on the array, its stations, the time range and the stations as
    normalized, and on what the loaders answer; on nothing an earlier call
    left. *)
Lemma load_depends_on_inputs (arg arg' : option RawTimeRange)
    (st st' : state Frames Cal) (tr : option (list datetime)) :
  same_inputs st st' →
  time_range (self st) = Some tr →
  (∀ station, station ∈ stations_to_load (self st) →
     get_frames' tr (array (self st)) station
     = get_frames tr (array (self st)) station
     ∧ load_cal' (array (self st)) station = load_cal (array (self st)) station) →
  (load arg st).1 = (load' arg' st').1
  ∧ ((load arg st).1 = Ok tt → self (load arg st).2 = self (load' arg' st').2).
Proof.
  intros Hsame Htr Hloaders. pose proof Hsame as (_ & _ & Ht & _).
  rewrite (load_eq _ _ _ get_frames load_cal arg st) by (by rewrite Htr).
  rewrite (load_eq _ _ _ get_frames' load_cal' arg' st')
    by (by rewrite <- Ht, Htr).
  destruct (load_stations_agree st st' tr Hsame Htr Hloaders) as [Hr Halike].
  destruct (load_stations st) as [[[]|e] st1],
    (load_stations' st') as [[[]|e'] st1']; cbn [fst snd] in *;
    try discriminate; [by apply build_respects | done].
Qed.

(** X18. Loading again gives the same object, when the loaders answer as
    before: once [load] has returned, a second [load], with any argument,
    for which the Frame Loader and the Calibration Loader give for every
    station what they gave the first time, returns too and leaves every
    attribute as the first call left it. *)
Theorem load_again_same_object (arg arg' : option RawTimeRange)
    (st : state Frames Cal) (tr : option (list datetime)) :
  (load arg st).1 = Ok tt →
  time_range (self st) = Some tr →
  (∀ station, station ∈ stations_to_load (self st) →
     get_frames' tr (array (self st)) station
     = get_frames tr (array (self st)) station
     ∧ load_cal' (array (self st)) station = load_cal (array (self st)) station) →
  (load' arg' (load arg st).2).1 = Ok tt
  ∧ self (load' arg' (load arg st).2).2 = self (load arg st).2.
Proof.
  intros Hok Htr Hloaders.
  destruct (load_steps_keeps_array _ _ _ get_frames load_cal arg st)
    as (Ha & Haa & Ht).
  assert (stations (self (load arg st).2) = normalized (stations (self st)))
    as Hs.
  { destruct (load_ok_split _ _ _ _ _ _ _ Hok) as [_ ->].
    rewrite (build_keeps_stations _ _ get_frames load_cal).
    by destruct (load_stations_normalizes _ _ get_frames load_cal st). }
  assert (same_inputs st (load arg st).2) as Hsame.
  { unfold same_inputs. rewrite Ha, Haa, Ht, Hs, normalized_idem. done. }
  destruct (load_depends_on_inputs arg arg' st (load arg st).2 tr Hsame Htr
              Hloaders) as [Hr Hself].
  split; [congruence | symmetry; by apply Hself].
Qed.

End Again.

(** *** On the example stations *)

Abbreviation example_init :=
  (imager.__init__ unit unit (list datetime) example._validate_time_range
     example.asi_stations_csv).
Abbreviation example_load :=
  (imager.load unit unit (list datetime) example.get_frames example.load_cal).
Abbreviation example_load_stations :=
  (imager.load_stations unit unit example.get_frames example.load_cal).

Lemma example_init_themis (stations : stations_val)
    (time_range : option (list datetime)) :
  example_init "themis" stations time_range
  = Ok (example.themis stations time_range).
Proof. by destruct time_range. Qed.

Lemma load_skips_only_station_no_data_example :
  (example_load_stations
     (example.started (example.themis StationsNone (Some example.one_hour)))).1
  = Ok tt
  ∧ calls (example_load_stations
             (example.started
                (example.themis StationsNone (Some example.one_hour)))).2
    = [CallGetFrames (Some example.one_hour) "THEMIS" "ATHA";
       CallGetFrames (Some example.one_hour) "THEMIS" "GILL";
       CallLoadCal "THEMIS" "GILL"].
Proof.
  destruct (load_skips_only_station_no_data unit unit (list datetime)
              example.get_frames example.load_cal None
              (example.started
                 (example.themis StationsNone (Some example.one_hour)))
              (Some example.one_hour) eq_refl) as [_ Hall].
  destruct Hall as (Hres & Hcalls & _).
  - apply (proj2 (Forall_cons _ "ATHA" ["GILL"])). split.
    { left. eexists. split; reflexivity. }
    apply (proj2 (Forall_cons _ "GILL" [])). split; [| constructor].
    right. eexists _, _, _. split; reflexivity.
  - split; [exact Hres | exact Hcalls].
Defined.

Lemma load_ignores_time_range_argument_example :
  example_load (Some example.two_hours)
    (example.started (example.themis StationsNone (Some example.one_hour)))
  = example_load None
      (example.started (example.themis StationsNone (Some example.one_hour)))
  ∧ time_range
      (self (example_load (Some example.two_hours)
               (example.started
                  (example.themis StationsNone (Some example.one_hour)))).2)
    = Some (Some example.one_hour).
Proof.
  destruct (load_ignores_time_range_argument unit unit (list datetime)
              example._validate_time_range example.get_frames
              example.load_cal example.asi_stations_csv "themis" StationsNone
              example.one_hour example.two_hours
              (example.themis StationsNone (Some example.one_hour)) [])
    as (Hsame & Hkept & _); [apply example_init_themis |].
  split; [exact Hsame | exact Hkept].
Defined.

Lemma missing_time_range_not_reported_example :
  imager.download unit unit (list datetime) None
    (example.started (example.themis StationsNone None))
  = (Ok tt, example.started (example.themis StationsNone None))
  ∧ ∃ more,
      calls (example_load None
               (example.started (example.themis StationsNone None))).2
      = CallGetFrames None "THEMIS" "ATHA" :: more.
Proof.
  destruct (missing_time_range_not_reported unit unit (list datetime)
              example._validate_time_range example.get_frames
              example.load_cal example.asi_stations_csv "themis" StationsNone
              (example.themis StationsNone None) [])
    as (_ & _ & Hdownload & Hload); [apply example_init_themis |].
  split; [exact Hdownload | exact (Hload "ATHA" ["GILL"] eq_refl)].
Defined.

Lemma load_normalizes_stations_example :
  stations
    (self (example_load None
             (example.started
                (example.themis (StationsStr "atha gill")
                   (Some example.one_hour)))).2)
  = StationsSeq ["ATHA"; "GILL"].
Proof.
  destruct (load_normalizes_stations unit unit (list datetime)
              example.get_frames example.load_cal None
              (example.started
                 (example.themis (StationsStr "atha gill")
                    (Some example.one_hour))))
    as [Hnorm _]; [vm_compute; reflexivity | exact Hnorm].
Defined.

Lemma load_named_stations_table_example :
  data_availability
    (self (example_load None
             (example.started
                (example.themis (StationsStr "atha gill")
                   (Some example.two_hours)))).2)
  = Some (Frame [example.hour_7; (example.hour_7 + us_per_hour)%Z]
            [("ATHA", [Text "-"; Text "-"]);
             ("GILL", [Text "Loaded"; Text "-"])]).
Proof.
  destruct (load_named_stations_table unit unit (list datetime)
              example.get_frames example.load_cal None
              (example.started
                 (example.themis (StationsStr "atha gill")
                    (Some example.two_hours)))
              example.two_hours (example.hour_7 + example.minutes 39)%Z
              (example.hour_7 + us_per_hour + example.minutes 2)%Z)
    as (_ & _ & Htable);
    [done | done | done | done | done | done | | | exact Htable].
  - apply (proj2 (Forall_cons _ "ATHA" ["GILL"])). split.
    { left. eexists. split; reflexivity. }
    apply (proj2 (Forall_cons _ "GILL" [])). split; [| constructor].
    right. eexists _, _, _. split; reflexivity.
  - intros s times frames Hs Hget t Ht.
    change (s ∈ ["ATHA"; "GILL"]) in Hs.
    apply elem_of_cons in Hs as [->|Hs]; [discriminate Hget |].
    apply list_elem_of_singleton in Hs as ->.
    injection Hget as <- _.
    apply list_elem_of_In. apply list_elem_of_In in Ht.
    destruct Ht as [<-|[<-|[]]]; vm_compute; tauto.
Defined.

Lemma load_returns_only_if_example :
  ∃ d, data (self (example_load None
                     (example.started
                        (example.themis (StationsStr "atha gill")
                           (Some example.one_hour)))).2) = Some d
       ∧ NoDup d.*1
       ∧ ("GILL" ∈ d.*1
          ↔ "GILL" ∈ ["ATHA"; "GILL"]
            ∧ spec.loaded unit unit example.get_frames example.load_cal
                (Some example.one_hour) "THEMIS" "GILL").
Proof.
  destruct (load_returns_only_if unit unit (list datetime)
              example.get_frames example.load_cal None
              (example.started
                 (example.themis (StationsStr "atha gill")
                    (Some example.one_hour))))
    as (tr & start & end_ & d & Htr & _ & _ & _ & Hd & Hnd & Hkeys);
    [vm_compute; reflexivity |].
  injection Htr as <-. exists d.
  split; [exact Hd | split; [exact Hnd | exact (Hkeys "GILL")]].
Defined.

Lemma load_failure_leaves_partial_data_example :
  (imager.load unit unit (list datetime) example.get_frames
     example.load_cal_missing None
     (example.started
        (example.themis (StationsSeq ["atha"; "gill"; "rank"])
           (Some example.one_hour)))).1
  = Raise (FileNotFoundError "calibration file not found")
  ∧ stations
      (self (imager.load unit unit (list datetime) example.get_frames
               example.load_cal_missing None
               (example.started
                  (example.themis (StationsSeq ["atha"; "gill"; "rank"])
                     (Some example.one_hour)))).2)
    = StationsSeq ["ATHA"; "GILL"; "RANK"]
  ∧ data_availability
      (self (imager.load unit unit (list datetime) example.get_frames
               example.load_cal_missing None
               (example.started
                  (example.themis (StationsSeq ["atha"; "gill"; "rank"])
                     (Some example.one_hour)))).2)
    = None.
Proof.
  destruct (load_failure_leaves_partial_data unit unit (list datetime)
              example.get_frames example.load_cal_missing None
              (example.started
                 (example.themis (StationsSeq ["atha"; "gill"; "rank"])
                    (Some example.one_hour)))
              (Some example.one_hour) ["ATHA"] "GILL" ["RANK"]
              (FileNotFoundError "calibration file not found"))
    as (Hres & Hstations & Htable & _); [done | done | | |].
  - apply (proj2 (Forall_cons _ "ATHA" [])). split; [| constructor].
    left. eexists. split; reflexivity.
  - right. eexists _, _. split; reflexivity.
  - split; [exact Hres | split; [exact Hstations | exact Htable]].
Defined.

Lemma load_again_same_object_example :
  (example_load (Some example.two_hours)
     (example_load None
        (example.started
           (example.themis (StationsStr "atha gill")
              (Some example.one_hour)))).2).1
  = Ok tt
  ∧ self (example_load (Some example.two_hours)
            (example_load None
               (example.started
                  (example.themis (StationsStr "atha gill")
                     (Some example.one_hour)))).2).2
    = self (example_load None
              (example.started
                 (example.themis (StationsStr "atha gill")
                    (Some example.one_hour)))).2.
Proof.
  apply (load_again_same_object unit unit (list datetime) example.get_frames
           example.get_frames example.load_cal example.load_cal None
           (Some example.two_hours)
           (example.started
              (example.themis (StationsStr "atha gill")
                 (Some example.one_hour)))
           (Some example.one_hour)).
  - vm_compute. reflexivity.
  - reflexivity.
  - intros station _. split; reflexivity.
Defined.

Lemma load_table_hours_example :
  ∃ df, data_availability
          (self (example_load None
                   (example.started
                      (example.themis (StationsStr "atha gill")
                         (Some example.two_hours)))).2) = Some df
        ∧ replace_to_hour (example.hour_7 + example.minutes 39)%Z
          ∈ columns df.
Proof.
  destruct (load_table_hours unit unit (list datetime) example.get_frames
              example.load_cal None
              (example.started
                 (example.themis (StationsStr "atha gill")
                    (Some example.two_hours))))
    as (tr & start & end_ & dates & df & d & Htr & Hhead & Hlast & _ & Hdf
        & _ & _ & Hcover & Hcols & _);
    [vm_compute; reflexivity |].
  injection Htr as <-. injection Hhead as <-. injection Hlast as <-.
  exists df. split; [exact Hdf |]. apply Hcols, Hcover.
  vm_compute. split; discriminate.
Defined.

(** C8, on the code, for the time range 07:39 to 07:40 of 2008-03-09 (and
    07:39 to 08:02), times pandas has. With [stations=None] the table is
    made with [index=self.stations], which is [None]: it has no row for the
    station without data, and the row of the loaded station comes from the
    assignment through [.loc], with NaN, not the marker, in the hours
    without frames.  With the two stations named the table is as the
    specification says. *)
Theorem load_all_stations_table_lacks_rows :
  example.hour_7 = 63340642800000000%Z
  ∧ forallb in_bounds (example.one_hour ++ example.two_hours) = true
  ∧ example_init "themis" StationsNone (Some example.one_hour)
    = Ok (example.themis StationsNone (Some example.one_hour))
  ∧ (example_load None
       (example.started (example.themis StationsNone (Some example.one_hour)))).1
    = Ok tt
  ∧ data_availability
      (self (example_load None
               (example.started
                  (example.themis StationsNone (Some example.one_hour)))).2)
    = Some (Frame [example.hour_7] [("GILL", [Text "Loaded"])])
  ∧ data_availability
      (self (example_load None
               (example.started
                  (example.themis StationsNone (Some example.two_hours)))).2)
    = Some (Frame [example.hour_7; (example.hour_7 + us_per_hour)%Z]
              [("GILL", [Text "Loaded"; NaN])])
  ∧ data_availability
      (self (example_load None
               (example.started
                  (example.themis (StationsStr "atha gill")
                     (Some example.two_hours)))).2)
    = Some (Frame [example.hour_7; (example.hour_7 + us_per_hour)%Z]
              [("ATHA", [Text "-"; Text "-"]);
               ("GILL", [Text "Loaded"; Text "-"])]).
Proof. repeat split; vm_compute; reflexivity. Qed.

End imager_facts.
